(** * HireSense-AI: the matching and scoring engine

    A shallow embedding of the scoring core of the backend:
    [services/matching.service.js], the skill normaliser the two intelligence
    services share, the scoring weights of [config/index.js],
    [utils/perplexityClient.js] as far as it can fail, and [compareCandidates]
    of the ranking service.  The properties the specification states about
    them follow the definitions.

    Conventions of the embedding.
    - A JavaScript string is a [string]: a sequence of 8-bit code units, read
      as the Latin-1 range of UTF-16.
    - A JavaScript number the engine computes with is a binary64 double: the
      primitive [float], whose sums, differences, products and quotients are
      the correctly rounded ones of IEEE 754, with [NaN], the two zeros and
      the infinities.  A decimal literal stands for the double nearest to
      it.  [Math.round], [Math.min], [Math.max], the truthiness of a number
      and its rendering in a template literal are defined on the doubles in
      the module [Number].
    - The scores [compareCandidates] reads back from the store are only
      compared with one another, never computed with; they are rationals
      [Q], which order the finite doubles as the doubles are ordered.
    - [undefined] and [null] are [None]; [a || b] and [a ?. f] are written
      out with the truthiness rules of the language.
    - A call that can throw returns a [result]; [await] is sequencing. *)

From Stdlib Require Import ZArith QArith List String Ascii Bool Lia Lqa.
From Stdlib Require Import DecimalString Floats.
Import ListNotations.

Open Scope string_scope.
Open Scope bool_scope.
Set Warnings "-inexact-float".

(** ** The language runtime: strings, truthiness, exceptions *)

Module JS.

(** *** Code units *)

Definition in_range (lo hi : N) (c : ascii) : bool :=
  (lo <=? N_of_ascii c)%N && (N_of_ascii c <=? hi)%N.

(** [String.prototype.toLowerCase] on one code unit: A-Z, and the Latin-1
    capitals U+00C0..U+00DE except the multiplication sign U+00D7. *)
Definition lower_unit (c : ascii) : ascii :=
  if in_range 65 90 c
     || (in_range 192 222 c && negb (N_of_ascii c =? 215)%N)
  then ascii_of_N (N_of_ascii c + 32) else c.

(** The canonical form the [i] flag compares (upper case, single unit):
    a-z, and U+00E0..U+00FE except the division sign U+00F7. *)
Definition canonical_unit (c : ascii) : ascii :=
  if in_range 97 122 c
     || (in_range 224 254 c && negb (N_of_ascii c =? 247)%N)
  then ascii_of_N (N_of_ascii c - 32) else c.

(** The class [\s] below U+0100: TAB, LF, VT, FF, CR, SPACE, NBSP. *)
Definition is_space (c : ascii) : bool :=
  in_range 9 13 c || (N_of_ascii c =? 32)%N || (N_of_ascii c =? 160)%N.

Definition unit_eqb (ignore_case : bool) (p c : ascii) : bool :=
  if ignore_case then Ascii.eqb (canonical_unit p) (canonical_unit c)
  else Ascii.eqb p c.

(** *** Strings *)

Fixpoint toLowerCase (s : string) : string :=
  match s with
  | EmptyString => EmptyString
  | String c s' => String (lower_unit c) (toLowerCase s')
  end.

(** [s.replace(/[class]/g, '')] *)
Fixpoint removeAll (class : ascii -> bool) (s : string) : string :=
  match s with
  | EmptyString => EmptyString
  | String c s' =>
      if class c then removeAll class s' else String c (removeAll class s')
  end.

(** The rest of [s] after the literal [pat], when [s] starts with it. *)
Fixpoint strip_prefix (ignore_case : bool) (pat s : string) : option string :=
  match pat with
  | EmptyString => Some s
  | String p pat' =>
      match s with
      | EmptyString => None
      | String c s' =>
          if unit_eqb ignore_case p c then strip_prefix ignore_case pat' s'
          else None
      end
  end.

Definition startsWith (s pat : string) : bool :=
  match strip_prefix false pat s with Some _ => true | None => false end.

(** [s.includes(t)] *)
Fixpoint includes (s t : string) : bool :=
  startsWith s t
  || match s with
     | EmptyString => false
     | String _ s' => includes s' t
     end.

(** [s.endsWith(t)] *)
Fixpoint endsWith (s t : string) : bool :=
  String.eqb s t
  || match s with
     | EmptyString => false
     | String _ s' => endsWith s' t
     end.

(** [s.slice(n)] *)
Fixpoint slice_from (n : nat) (s : string) : string :=
  match n, s with
  | O, _ => s
  | S _, EmptyString => EmptyString
  | S n', String _ s' => slice_from n' s'
  end.

(** [s.slice(0, -n)] *)
Definition slice_to_last (n : nat) (s : string) : string :=
  String.substring 0 (String.length s - n) s.

(** The regular expressions of the engine: a literal, optionally anchored
    at either end, optionally case-insensitive ([/^lit/i], [/lit$/i],
    [/lit/i]). *)
Record regex : Type := Regex {
  re_bol : bool;
  re_lit : string;
  re_eol : bool;
  re_i   : bool
}.

Definition match_here (re : regex) (s : string) : option string :=
  match strip_prefix (re_i re) (re_lit re) s with
  | Some EmptyString => Some EmptyString
  | Some rest => if re_eol re then None else Some rest
  | None => None
  end.

Fixpoint replace_from (re : regex) (rep s : string) : string :=
  match match_here re s with
  | Some rest => rep ++ rest
  | None =>
      match s with
      | EmptyString => EmptyString
      | String c s' => String c (replace_from re rep s')
      end
  end.

(** [s.replace(re, rep)] without the [g] flag: the leftmost match only. *)
Definition replace (re : regex) (rep s : string) : string :=
  if re_bol re then
    match match_here re s with
    | Some rest => rep ++ rest
    | None => s
    end
  else replace_from re rep s.

(** Method chaining: [x |> f] is [f x]. *)
Notation "x |> f" := (f x) (at level 45, left associativity, only parsing).

Fixpoint trimStart (s : string) : string :=
  match s with
  | EmptyString => EmptyString
  | String c s' => if is_space c then trimStart s' else s
  end.

Fixpoint trimEnd (s : string) : string :=
  match s with
  | EmptyString => EmptyString
  | String c s' =>
      match trimEnd s' with
      | EmptyString => if is_space c then EmptyString else String c EmptyString
      | t => String c t
      end
  end.

Definition trim (s : string) : string := trimEnd (trimStart s).

(** *** Truthiness: [a || b] on optional strings, numbers and arrays *)

Definition or_str (a b : option string) : option string :=
  match a with
  | None | Some EmptyString => b
  | Some _ => a
  end.

(** [x || d] on a stored score: [undefined], [null] and [0] are falsy. *)
Definition or_num (x : option Q) (d : Q) : Q :=
  match x with
  | Some q => if Qeq_bool q 0 then d else q
  | None => d
  end.

Definition or_list {A : Type} (l : option (list A)) : list A :=
  match l with Some l' => l' | None => [] end.

(** [o ?. f] *)
Definition chain {A B : Type} (o : option A) (f : A -> option B) : option B :=
  match o with Some a => f a | None => None end.

(** *** Stored scores and integers *)

(** [a > b] on stored scores. *)
Definition gt (a b : Q) : bool := negb (Qle_bool a b).

(** Template-literal rendering of an integer. *)
Definition to_string (n : Z) : string := NilZero.string_of_int (Z.to_int n).

(** *** [Set] of strings: insertion order, no duplicates *)

Definition Set_has (s : list string) (x : string) : bool :=
  existsb (String.eqb x) s.

Definition Set_add (s : list string) (x : string) : list string :=
  if Set_has s x then s else s ++ [x].

Definition Set_from (l : list string) : list string :=
  fold_left Set_add l [].

(** [l.reduce(f)] without an initial value; [None] is the [TypeError] on an
    empty array. *)
Definition reduce {A : Type} (f : A -> A -> A) (l : list A) : option A :=
  match l with
  | [] => None
  | x :: l' => Some (fold_left f l' x)
  end.

(** *** Exceptions *)

Inductive result (A : Type) : Type :=
| Ok (a : A)
| Throw (message : string).
Arguments Ok {A} a.
Arguments Throw {A} message.

Definition bind {A B : Type} (r : result A) (k : A -> result B) : result B :=
  match r with
  | Ok a => k a
  | Throw m => Throw m
  end.

(** [try { body } catch (error) { handler }] *)
Definition try_catch {A : Type} (body : result A) (handler : string -> result A)
  : result A :=
  match body with
  | Ok a => Ok a
  | Throw m => handler m
  end.

End JS.


(** ** The language runtime: numbers

    The type [Number] of the language is [float]; [+], [-], [*], [/], [<] and
    [<=] are the primitive operations. *)

Module Number.

Local Open Scope float_scope.

(** A number is falsy when it is [0], [-0] or [NaN]. *)
Definition truthy (x : float) : bool := negb (x =? 0) && negb (is_nan x).

(** [x || d] on a number that may be absent. *)
Definition or_num (x : option float) (d : float) : float :=
  match x with
  | Some q => if truthy q then q else d
  | None => d
  end.

(** [a >= b] and [a > b]: false when an operand is [NaN]. *)
Definition ge (a b : float) : bool := b <=? a.
Definition gt (a b : float) : bool := b <? a.

(** The double nearest to an integer. *)
Definition of_Z (z : Z) : float := SF2Prim (binary_normalize prec emax z 0 false).

(** [l.length] *)
Definition len {A : Type} (l : list A) : float := of_Z (Z.of_nat (List.length l)).

(** [Math.round(x)]: the integer nearest to [x], the greater one of two that
    are equally near.  [NaN], the infinities and the zeros are returned as
    they are, and a result of zero keeps the sign of [x].  A finite double
    is [m * 2 ^ e]; with [e >= 0] it is an integer already, otherwise the
    result is the floor of [x + 1/2], taken exactly. *)
Definition Math_round (x : float) : float :=
  match Prim2SF x with
  | S754_finite s m e =>
      if (0 <=? e)%Z then x
      else
        let n := if s then Zneg m else Zpos m in
        let d := Z.pow 2 (- e) in
        let r := Z.div (2 * n + d) (2 * d) in
        if (r =? 0)%Z then (if s then neg_zero else zero) else of_Z r
  | _ => x
  end.

(** [Math.min(a, b)] and [Math.max(a, b)]: [NaN] when an argument is, and
    [-0] below [+0]. *)
Definition Math_min (a b : float) : float :=
  if is_nan a || is_nan b then nan
  else if a <? b then a
  else if b <? a then b
  else if get_sign a then a else b.

Definition Math_max (a b : float) : float :=
  if is_nan a || is_nan b then nan
  else if a <? b then b
  else if b <? a then a
  else if get_sign a then b else a.


(** *** [Number::toString], the rendering of a number in a template literal

    The digits are the shortest decimal that reads back as the number and,
    where several of this length do, the one nearest to it; they are laid
    out as an integer, a decimal fraction or in exponent notation by the
    position [n] of the decimal point. *)

Definition digits_of (n : Z) : string :=
  NilZero.string_of_uint (N.to_uint (Z.to_N n)).

(** The position of the decimal point of [num / den]: the least [n] with
    [num / den < 10 ^ n], searched upwards from [n]. *)
Fixpoint magnitude (fuel : nat) (num den : Z) (n : Z) : Z :=
  match fuel with
  | O => n
  | S fuel' =>
      if (0 <=? n)%Z
      then (if (num <? den * 10 ^ n)%Z then n
            else magnitude fuel' num den (n + 1))
      else (if (num * 10 ^ (- n) <? den)%Z then n
            else magnitude fuel' num den (n + 1))
  end.

(** [num / den] divided by [10 ^ p], as a fraction. *)
Definition scaled (num den p : Z) : Z * Z :=
  if (0 <=? p)%Z then (num, den * 10 ^ p)%Z else (num * 10 ^ (- p), den)%Z.

(** Does [s * 10 ^ p] lie between [lo / den] and [hi / den], the ends
    included when [closed]? *)
Definition within (closed : bool) (lo hi den s p : Z) : bool :=
  let '(ln, ld) := scaled lo den p in
  let '(hn, hd) := scaled hi den p in
  if closed then (ln <=? s * ld)%Z && (s * hd <=? hn)%Z
  else (ln <? s * ld)%Z && (s * hd <? hn)%Z.

(** The digits [s] and the position [n] of the shortest decimal
    [s * 10 ^ (n - k)] of [k] digits between [lo / den] and [hi / den],
    tried with [k] digits, then with one more; of the two candidates around
    [v / den] the nearer is taken. *)
Fixpoint shortest (fuel : nat) (closed : bool) (lo v hi den n0 : Z) (k : Z)
  : Z * Z :=
  match fuel with
  | O => (0, 0)%Z
  | S fuel' =>
      let p := (n0 - k)%Z in
      let '(vn, vd) := scaled v den p in
      let s1 := (vn / vd)%Z in
      let s2 := (s1 + 1)%Z in
      let ok1 := (0 <? s1)%Z && within closed lo hi den s1 p in
      let ok2 := within closed lo hi den s2 p in
      let nearer1 := (2 * vn <=? (s1 + s2) * vd)%Z in
      let pick s :=
        if (s =? 10 ^ k)%Z then (10 ^ (k - 1), n0 + 1)%Z else (s, n0) in
      if ok1 && ok2 then (if nearer1 then pick s1 else pick s2)
      else if ok1 then pick s1
      else if ok2 then pick s2
      else shortest fuel' closed lo v hi den n0 (k + 1)
  end.

Fixpoint strip_zeros (fuel : nat) (s : Z) : Z :=
  match fuel with
  | O => s
  | S fuel' => if (s mod 10 =? 0)%Z then strip_zeros fuel' (s / 10)%Z else s
  end.

Fixpoint zeros (n : nat) : string :=
  match n with O => "" | S n' => "0" ++ zeros n' end.

(** The layout of the digits [s] with the decimal point at position [n]. *)
Definition layout (s n : Z) : string :=
  let ds := digits_of s in
  let k := Z.of_nat (String.length ds) in
  if (k <=? n)%Z && (n <=? 21)%Z then ds ++ zeros (Z.to_nat (n - k))
  else if (0 <? n)%Z && (n <=? 21)%Z then
    substring 0 (Z.to_nat n) ds ++ "."
    ++ substring (Z.to_nat n) (Z.to_nat (k - n)) ds
  else if (-6 <? n)%Z && (n <=? 0)%Z then "0." ++ zeros (Z.to_nat (- n)) ++ ds
  else
    let e := (n - 1)%Z in
    let es := (if (0 <=? e)%Z then "+" else "-") ++ digits_of (Z.abs e) in
    if (k =? 1)%Z then ds ++ "e" ++ es
    else substring 0 1 ds ++ "." ++ substring 1 (Z.to_nat (k - 1)) ds
         ++ "e" ++ es.

(** [`${x}`].  A finite double [m * 2 ^ e] is [v / den]; the doubles next to
    it are half as far below a power of two as above it; [lo / den] and
    [hi / den] are the midpoints to them, which read back as [x] when [m] is
    even. *)
Definition to_string (x : float) : string :=
  match Prim2SF x with
  | S754_nan => "NaN"
  | S754_zero _ => "0"
  | S754_infinity s => if s then "-Infinity" else "Infinity"
  | S754_finite sg m e =>
      let den := (4 * 2 ^ Z.max (- e) 0)%Z in
      let unit := (4 * 2 ^ Z.max e 0)%Z in
      let v := (Zpos m * unit)%Z in
      let boundary := (Zpos m =? 2 ^ 52)%Z && (-1074 <? e)%Z in
      let lo := if boundary then (v - unit / 4)%Z else (v - unit / 2)%Z in
      let hi := (v + unit / 2)%Z in
      let closed := Z.even (Zpos m) in
      let n0 := magnitude 700 v den (-330) in
      let '(s, n) := shortest 20 closed lo v hi den n0 1 in
      (if sg then "-" else "") ++ layout (strip_zeros 20 s) n
  end.

End Number.

(** ** The order and the signs of the doubles *)

Module Double.

(** The place of a number in the order of the doubles: its sign, then its
    exponent, then its mantissa. *)
Definition SFkey (f : spec_float) : Z * Z * Z :=
  match f with
  | S754_zero _ => (0, 0, 0)
  | S754_infinity false => (2, 0, 0)
  | S754_infinity true => (-2, 0, 0)
  | S754_nan => (0, 0, 0)
  | S754_finite false m e => (1, e, Zpos m)
  | S754_finite true m e => (-1, - e, Zneg m)
  end%Z.

Definition key (x : float) : Z * Z * Z := SFkey (Prim2SF x).

Definition lex_lt (a b : Z * Z * Z) : Prop :=
  let '(a1, a2, a3) := a in
  let '(b1, b2, b3) := b in
  (a1 < b1 \/ (a1 = b1 /\ (a2 < b2 \/ (a2 = b2 /\ a3 < b3))))%Z.

Definition lex_eq (a b : Z * Z * Z) : Prop :=
  let '(a1, a2, a3) := a in
  let '(b1, b2, b3) := b in
  (a1 = b1 /\ a2 = b2 /\ a3 = b3)%Z.

Definition lex_le (a b : Z * Z * Z) : Prop := lex_lt a b \/ lex_eq a b.

(** Not [NaN]. *)
Definition is_number (x : float) : Prop := Prim2SF x <> S754_nan.




End Double.

(** ** config/index.js: the scoring weights *)

Module Config.

Local Open Scope float_scope.

Record Weights : Type := {
  skills : float;
  experience : float;
  projects : float;
  education : float
}.

Definition weights : Weights := {|
  skills := 0.50;
  experience := 0.25;
  projects := 0.15;
  education := 0.10
|}.




End Config.

(** ** utils/perplexityClient.js: the explanation collaborator *)

Module PerplexityClient.

Import JS.

(** The reply of the service as the client reads it:
    [data.choices[i].message.content]. *)
Record Choice : Type := {
  content : string
}.

Record Data : Type := {
  choices : option (list Choice)
}.

(** What one call of [fetch] comes to: the promise rejects (no connection,
    connection reset, timed out), or a response arrives with its [ok] flag,
    its status, its body as text and its body read by [response.json()]. *)
Inductive Outcome : Type :=
| Rejected (message : string)
| Responded (ok : bool) (status : Z) (text : string) (json : result Data).

Section Client.

(** [JSON.parse]: the value, or the message of the [SyntaxError]. *)
Variable Json : Type.
Variable JSON_parse : string -> result Json.

(** [config.perplexity.apiKey], and the service reached through [fetch] with
    the two messages of the request. *)
Variable apiKey : option string.
Variable fetch : string -> string -> Outcome.

(** [validateConfig()] *)
Definition validateConfig : result unit :=
  match or_str apiKey None with
  | Some _ => Ok tt
  | None =>
      Throw "Perplexity API key is not configured. Set PERPLEXITY_API_KEY in .env"
  end.

(** [parseJsonResponse(content)] *)
Definition parseJsonResponse (content : string) : result Json :=
  let jsonString := trim content in
  let jsonString :=
    if startsWith jsonString "```json" then slice_from 7 jsonString
    else if startsWith jsonString "```" then slice_from 3 jsonString
    else jsonString in
  let jsonString :=
    if endsWith jsonString "```" then slice_to_last 3 jsonString
    else jsonString in
  let jsonString := trim jsonString in
  try_catch (JSON_parse jsonString)
    (fun message =>
       Throw ("Failed to parse LLM response as JSON: " ++ message)).

(** [complete(systemPrompt, userContent)] *)
Definition complete (systemPrompt userContent : string) : result Json :=
  bind validateConfig
    (fun _ =>
       try_catch
         match fetch systemPrompt userContent with
         | Rejected message => Throw message
         | Responded ok status text json =>
             if negb ok then
               Throw ("Perplexity API error (" ++ to_string status ++ "): "
                      ++ text)
             else
               bind json
                 (fun data =>
                    match choices data with
                    | None | Some [] => Throw "No response from Perplexity API"
                    | Some (choice :: _) => parseJsonResponse (content choice)
                    end)
         end
         (fun error => Throw error)).

End Client.

End PerplexityClient.

(** ** services/matching.service.js *)

Module Matching.

Import JS.
Import Number.
Local Open Scope float_scope.

(** *** The structured job description and resume, as the engine reads them *)

Record Skill : Type := {
  name : option string;
  normalized : option string;
  importance : option float
}.

Record JDExperience : Type := {
  min_years : option float;
  max_years : option float;
  required_domains : option (list string)
}.

Record JDEducation : Type := {
  min_degree : option string;
  preferred_degree : option string;
  required_fields : option (list string)
}.

Record JD : Type := {
  required_skills : option (list Skill);
  preferred_skills : option (list Skill);
  jd_experience : option JDExperience;
  jd_education : option JDEducation
}.

Record Project : Type := {
  technologies : option (list string)
}.

Record EducationEntry : Type := {
  field : option string
}.

Record Computed : Type := {
  skill_set : option (list string);
  technology_set : option (list string);
  total_experience_years : option float;
  domains : option (list string);
  highest_degree : option string
}.

Record Resume : Type := {
  skills : option (list Skill);
  projects : option (list Project);
  resume_education : option (list EducationEntry);
  _computed : option Computed
}.

(** *** Skill names *)

(** [normalizeSkillName(skillName)] *)
Definition normalizeSkillName (skillName : option string) : string :=
  match skillName with
  | None => ""
  | Some "" => ""
  | Some skillName =>
      skillName
      |> toLowerCase
      (* .replace(/[.\-_\s]/g, '') *)
      |> removeAll (fun c => Ascii.eqb c "." || Ascii.eqb c "-"
                             || Ascii.eqb c "_" || is_space c)
      (* .replace(/js$/i, 'javascript') *)
      |> replace (Regex false "js" true true) "javascript"
      (* .replace(/reactjs/i, 'react') *)
      |> replace (Regex false "reactjs" false true) "react"
      (* .replace(/nodejs/i, 'node') *)
      |> replace (Regex false "nodejs" false true) "node"
  end.

(** [hasSkill(candidateSkills, skillName)] *)
Definition hasSkill (candidateSkills : list string) (skillName : option string)
  : bool :=
  let normalized := normalizeSkillName skillName in
  if Set_has candidateSkills normalized then true
  else
    existsb
      (fun candidateSkill =>
         includes candidateSkill normalized
         || includes normalized candidateSkill)
      candidateSkills.

(** *** Skills *)

Definition candidateSkills_of (resume : Resume) : list string :=
  Set_from
    (or_list (chain (_computed resume) skill_set)
     ++ or_list (chain (_computed resume) technology_set)).

(** One pass of the loop [for (const skill of list)] with its two
    accumulators, [(score, maxScore)]; [default] is the importance taken
    when [skill.importance] is falsy. *)
Definition tally_step (default : float) (candidateSkills : list string)
    (acc : float * float) (skill : Skill) : float * float :=
  let importance := or_num (importance skill) default in
  let maxScore := snd acc + importance in
  if hasSkill candidateSkills (or_str (normalized skill) (name skill))
  then (fst acc + importance, maxScore)
  else (fst acc, maxScore).

Definition tally (default : float) (candidateSkills : list string)
    (list : list Skill) : float * float :=
  fold_left (tally_step default candidateSkills) list (0, 0).

Definition matchRate (t : float * float) : float :=
  if gt (snd t) 0 then fst t / snd t else 1.

(** [calculateSkillsScore(jd, resume)] *)
Definition calculateSkillsScore (jd : JD) (resume : Resume) : float :=
  let candidateSkills := candidateSkills_of resume in
  let requiredSkills := or_list (required_skills jd) in
  let requiredMatchRate := matchRate (tally 3 candidateSkills requiredSkills) in
  let preferredSkills := or_list (preferred_skills jd) in
  let preferredMatchRate :=
    matchRate (tally 2 candidateSkills preferredSkills) in
  let combinedScore :=
    (requiredMatchRate * 0.7 + preferredMatchRate * 0.3) * 100 in
  Math_round combinedScore.

(** *** Experience *)

Definition domain_matches (candidateDomains : list string) (d : string) : bool :=
  existsb
    (fun cd =>
       includes (toLowerCase cd) (toLowerCase d)
       || includes (toLowerCase d) (toLowerCase cd))
    candidateDomains.

(** [calculateExperienceScore(jd, resume)] *)
Definition calculateExperienceScore (jd : JD) (resume : Resume) : float :=
  let requiredYears := or_num (chain (jd_experience jd) min_years) 0 in
  let maxYears := chain (jd_experience jd) max_years in
  let candidateYears :=
    or_num (chain (_computed resume) total_experience_years) 0 in
  let yearsScore :=
    if ge candidateYears requiredYears then
      match maxYears with
      | Some maxYears =>
          if truthy maxYears && gt candidateYears (maxYears + 3)
          then 100 - Math_min 20 ((candidateYears - maxYears - 3) * 5)
          else 100
      | None => 100
      end
    else
      let ratio := candidateYears / requiredYears in
      Math_round (ratio * 100) in
  let requiredDomains := or_list (chain (jd_experience jd) required_domains) in
  let candidateDomains := or_list (chain (_computed resume) domains) in
  let domainBonus :=
    if (0 <? List.length requiredDomains)%nat then
      let matchedDomains :=
        filter (domain_matches candidateDomains) requiredDomains in
      (len matchedDomains / len requiredDomains) * 10
    else 0 in
  Math_min 100 (Math_round (yearsScore + domainBonus)).

(** *** Projects *)

Definition tech_matches (requiredSkillsNormalized : list string) (t : string)
  : bool :=
  existsb (fun rs => includes t rs || includes rs t) requiredSkillsNormalized.

(** One pass of [for (const project of projects)] with its accumulators
    [(relevantProjects, totalRelevance)]. *)
Definition project_step (requiredSkillsNormalized : list string)
    (acc : nat * float) (project : Project) : nat * float :=
  let projectTechs :=
    map (fun t => normalizeSkillName (Some t))
        (or_list (technologies project)) in
  let matchedTechs :=
    filter (tech_matches requiredSkillsNormalized) projectTechs in
  if (0 <? List.length matchedTechs)%nat then
    (S (fst acc),
     snd acc + len matchedTechs / Math_max (len projectTechs) 1)
  else acc.

(** [calculateProjectsScore(jd, resume)] *)
Definition calculateProjectsScore (jd : JD) (resume : Resume) : float :=
  let projects := or_list (projects resume) in
  if (List.length projects =? 0)%nat then 50
  else
    let requiredSkillsNormalized :=
      map (fun s => normalizeSkillName (or_str (normalized s) (name s)))
          (or_list (required_skills jd)) in
    let acc := fold_left (project_step requiredSkillsNormalized) projects
                         (O, 0) in
    let relevantProjects := fst acc in
    let totalRelevance := snd acc in
    let hasRelevantProjects := (0 <? relevantProjects)%nat in
    let projectScore :=
      if hasRelevantProjects
      then 60 + Math_min 40 ((totalRelevance / len projects) * 100)
      else 40 in
    Math_round projectScore.

(** *** Education *)

Definition degreeRanking : list (string * float) :=
  [("phd", 5); ("master", 4); ("bachelor", 3); ("associate", 2);
   ("certification", 1); ("high_school", 0); ("none", 0); ("unknown", 1)].

(** [degreeRanking[key]], for keys that are not properties every object
    inherits. *)
Fixpoint lookup (table : list (string * float)) (key : string)
  : option float :=
  match table with
  | [] => None
  | (k, v) :: table' => if String.eqb k key then Some v else lookup table' key
  end.

Definition or_default (a : option string) (d : string) : string :=
  match or_str a (Some d) with Some s => s | None => d end.

(** [calculateEducationScore(jd, resume)] *)
Definition calculateEducationScore (jd : JD) (resume : Resume) : float :=
  let requiredDegree := or_default (chain (jd_education jd) min_degree) "none" in
  let preferredDegree :=
    or_default (chain (jd_education jd) preferred_degree) requiredDegree in
  let candidateDegree :=
    or_default (chain (_computed resume) highest_degree) "unknown" in
  let requiredRank := or_num (lookup degreeRanking requiredDegree) 0 in
  let preferredRank :=
    or_num (lookup degreeRanking preferredDegree) requiredRank in
  let candidateRank := or_num (lookup degreeRanking candidateDegree) 0 in
  let degreeScore :=
    if ge candidateRank preferredRank then 100
    else if ge candidateRank requiredRank then 80
    else Math_round ((candidateRank / Math_max requiredRank 1) * 70) in
  let requiredFields :=
    map toLowerCase (or_list (chain (jd_education jd) required_fields)) in
  let degreeScore :=
    match resume_education resume with
    | Some education =>
        if (0 <? List.length requiredFields)%nat then
          let candidateFields :=
            map (fun e => toLowerCase (or_default (field e) "")) education in
          let hasFieldMatch :=
            existsb
              (fun rf =>
                 existsb (fun cf => includes cf rf || includes rf cf)
                         candidateFields)
              requiredFields in
          if hasFieldMatch then Math_min 100 (degreeScore + 10)
          else degreeScore
        else degreeScore
    | None => degreeScore
    end in
  Math_round degreeScore.

(** *** Reports attached to a match *)

Record SkillsAnalysis : Type := {
  matchedRequired : list (option string);
  missingRequired : list (option string);
  matchedPreferred : list (option string);
  bonusSkills : list (option string)
}.

Definition option_string_eqb (a b : option string) : bool :=
  match a, b with
  | Some x, Some y => String.eqb x y
  | None, None => true
  | _, _ => false
  end.

(** [getSkillsAnalysis(jd, resume)] *)
Definition getSkillsAnalysis (jd : JD) (resume : Resume) : SkillsAnalysis :=
  let candidateSkills := candidateSkills_of resume in
  let has skill :=
    hasSkill candidateSkills (or_str (normalized skill) (name skill)) in
  let jdSkillsNormalized :=
    (map normalized (or_list (required_skills jd))
     ++ map normalized (or_list (preferred_skills jd)))%list in
  {| matchedRequired := map name (filter has (or_list (required_skills jd)));
     missingRequired :=
       map name (filter (fun s => negb (has s)) (or_list (required_skills jd)));
     matchedPreferred :=
       map name (filter has (or_list (preferred_skills jd)));
     bonusSkills :=
       firstn 10
         (map name
            (filter
               (fun skill =>
                  negb (existsb (option_string_eqb (normalized skill))
                                jdSkillsNormalized))
               (or_list (skills resume)))) |}.

Record ExperienceAnalysis : Type := {
  required : float;
  candidate : float;
  meetsRequirement : bool;
  relevantDomains : list string
}.

(** [getExperienceAnalysis(jd, resume)] *)
Definition getExperienceAnalysis (jd : JD) (resume : Resume)
  : ExperienceAnalysis :=
  {| required := or_num (chain (jd_experience jd) min_years) 0;
     candidate := or_num (chain (_computed resume) total_experience_years) 0;
     meetsRequirement :=
       ge (or_num (chain (_computed resume) total_experience_years) 0)
          (or_num (chain (jd_experience jd) min_years) 0);
     relevantDomains := or_list (chain (_computed resume) domains) |}.

(** *** The match and its explanation *)

Record Scores : Type := {
  total : float;
  skills_score : float;
  experience_score : float;
  projects_score : float;
  education_score : float
}.

Record BasicExplanation : Type := {
  summary : string;
  strengths : list string;
  gaps : list string;
  recommendation : string
}.

Section Explanation.

(** The collaborator, [perplexityClient.complete]: it returns the object
    parsed from the reply, of a type the engine does not inspect, or throws.
    [MATCH_EXPLANATION_PROMPT] is the text of prompts/index.js; [context] is
    the text the engine assembles from the job description, the resume and
    the five scores (the requirements, the first fifteen skills, three
    positions and three projects, the highest degree, and the scores). *)
Variable Json : Type.
Variable complete : string -> string -> result Json.
Variable MATCH_EXPLANATION_PROMPT : string.
Variable context : JD -> Resume -> Scores -> string.

Inductive Explanation : Type :=
| Narrated (reply : Json)
| Basic (fallback : BasicExplanation).

(** [generateExplanation(jd, resume, scores)] *)
Definition generateExplanation (jd : JD) (resume : Resume) (scores : Scores)
  : result Explanation :=
  try_catch
    (bind (complete MATCH_EXPLANATION_PROMPT (context jd resume scores))
          (fun explanation => Ok (Narrated explanation)))
    (fun error =>
       Ok (Basic
             {| summary :=
                  "Candidate scored " ++ to_string (total scores)
                  ++ "/100 based on weighted evaluation of skills, experience, projects, and education.";
                strengths := [];
                gaps := [];
                recommendation :=
                  if ge (total scores) 70 then "hire" else "maybe" |})).

Record MatchDetails : Type := {
  skillsAnalysis : SkillsAnalysis;
  experienceAnalysis : ExperienceAnalysis
}.

Record Match : Type := {
  scores : Scores;
  explanation : Explanation;
  matchDetails : MatchDetails
}.

Definition weights : Config.Weights := Config.weights.

(** [calculateMatch(structuredJD, structuredResume)] *)
Definition calculateMatch (structuredJD : JD) (structuredResume : Resume)
  : result Match :=
  let skillsScore := calculateSkillsScore structuredJD structuredResume in
  let experienceScore :=
    calculateExperienceScore structuredJD structuredResume in
  let projectsScore :=
    calculateProjectsScore structuredJD structuredResume in
  let educationScore :=
    calculateEducationScore structuredJD structuredResume in
  let totalScore :=
    Math_round
      (skillsScore * Config.skills weights
       + experienceScore * Config.experience weights
       + projectsScore * Config.projects weights
       + educationScore * Config.education weights) in
  let scores :=
    {| total := totalScore;
       skills_score := skillsScore;
       experience_score := experienceScore;
       projects_score := projectsScore;
       education_score := educationScore |} in
  bind (generateExplanation structuredJD structuredResume scores)
       (fun explanation =>
          Ok {| scores := scores;
                explanation := explanation;
                matchDetails :=
                  {| skillsAnalysis :=
                       getSkillsAnalysis structuredJD structuredResume;
                     experienceAnalysis :=
                       getExperienceAnalysis structuredJD structuredResume
                  |} |}).

End Explanation.

Arguments Narrated {Json} reply.
Arguments Basic {Json} fallback.
Arguments scores {Json} m.
Arguments explanation {Json} m.
Arguments matchDetails {Json} m.

End Matching.
(** ** services/resumeIntelligence.service.js and the job-description
       service: the normaliser applied when profiles are enriched *)

Module ResumeIntelligence.

Import JS.

(** [normalizeSkillName(skillName)] *)
Definition normalizeSkillName (skillName : option string) : string :=
  match skillName with
  | None => ""
  | Some "" => ""
  | Some skillName =>
      skillName
      |> toLowerCase
      (* .replace(/[.\-_]/g, '') *)
      |> removeAll (fun c => Ascii.eqb c "." || Ascii.eqb c "-"
                             || Ascii.eqb c "_")
      (* .replace(/\s+/g, '') *)
      |> removeAll is_space
      (* .replace(/js$/i, 'javascript') *)
      |> replace (Regex false "js" true true) "javascript"
      (* .replace(/^js/i, 'javascript') *)
      |> replace (Regex true "js" false true) "javascript"
      (* .replace(/reactjs/i, 'react') *)
      |> replace (Regex false "reactjs" false true) "react"
      (* .replace(/nodejs/i, 'node') *)
      |> replace (Regex false "nodejs" false true) "node"
      (* .replace(/vuejs/i, 'vue') *)
      |> replace (Regex false "vuejs" false true) "vue"
      (* .replace(/angularjs/i, 'angular') *)
      |> replace (Regex false "angularjs" false true) "angular"
      |> trim
  end.

End ResumeIntelligence.

Module JDIntelligence.

(** The job-description service repeats the same chain verbatim. *)
Definition normalizeSkillName : option string -> string :=
  ResumeIntelligence.normalizeSkillName.

End JDIntelligence.

(** ** The ranking service: [compareCandidates] *)

Module Ranking.

Import JS.
Local Open Scope Q_scope.

(** What [CandidateModel.findById] returns for a stored candidate. *)
Record Candidate : Type := {
  id : string;
  name : string;
  score_total : option Q;
  score_skills : option Q;
  score_experience : option Q;
  score_projects : option Q;
  score_education : option Q;
  classification : option string
}.

Inductive Dimension : Type := skills | experience | projects | education.

(** [c[`score_${dim}`]] *)
Definition score (dim : Dimension) (c : Candidate) : option Q :=
  match dim with
  | skills => score_skills c
  | experience => score_experience c
  | projects => score_projects c
  | education => score_education c
  end.

Record CandidateScores : Type := {
  cs_total : option Q;
  cs_skills : option Q;
  cs_experience : option Q;
  cs_projects : option Q;
  cs_education : option Q
}.

Record CandidateSummary : Type := {
  summary_id : string;
  summary_name : string;
  summary_scores : CandidateScores;
  summary_classification : option string
}.

Record DimensionComparison : Type := {
  dimension : Dimension;
  dimension_scores : list (string * option Q);
  winner : string
}.

Record Comparison : Type := {
  candidates : list CandidateSummary;
  dimensions : list DimensionComparison;
  overallWinner : string
}.

(** The callback of both reductions:
    [(best, c) => (key(c) || 0) > (key(best) || 0) ? c : best]. *)
Definition pick (key : Candidate -> option Q) (best c : Candidate) : Candidate :=
  if gt (or_num (key c) 0) (or_num (key best) 0) then c else best.

Definition reduce_or_throw {A : Type} (f : A -> A -> A) (l : list A)
  : result A :=
  match reduce f l with
  | Some a => Ok a
  | None => Throw "Reduce of empty array with no initial value"
  end.

Fixpoint map_result {A B : Type} (f : A -> result B) (l : list A)
  : result (list B) :=
  match l with
  | [] => Ok []
  | a :: l' =>
      bind (f a) (fun b => bind (map_result f l') (fun bs => Ok (b :: bs)))
  end.

(** [array.filter(Boolean)] on the results of the look-ups. *)
Fixpoint filter_Boolean {A : Type} (l : list (option A)) : list A :=
  match l with
  | [] => []
  | Some a :: l' => a :: filter_Boolean l'
  | None :: l' => filter_Boolean l'
  end.

(** [compareCandidates(candidateIds)]; [findById] is the state of the
    candidate collection, [None] for an identifier it does not resolve. *)
Definition compareCandidates (findById : string -> option Candidate)
    (candidateIds : list string) : result Comparison :=
  let candidates := map findById candidateIds in
  let validCandidates := filter_Boolean candidates in
  if (List.length validCandidates <? 2)%nat then
    Throw "Need at least 2 valid candidates to compare"
  else
    bind
      (map_result
         (fun dim =>
            bind (reduce_or_throw (pick (score dim)) validCandidates)
                 (fun best =>
                    Ok {| dimension := dim;
                          dimension_scores :=
                            map (fun c => (id c, score dim c)) validCandidates;
                          winner := id best |}))
         [skills; experience; projects; education])
      (fun dimensions =>
         bind (reduce_or_throw (pick score_total) validCandidates)
              (fun best =>
                 Ok {| candidates :=
                         map (fun c =>
                                {| summary_id := id c;
                                   summary_name := name c;
                                   summary_scores :=
                                     {| cs_total := score_total c;
                                        cs_skills := score_skills c;
                                        cs_experience := score_experience c;
                                        cs_projects := score_projects c;
                                        cs_education := score_education c |};
                                   summary_classification := classification c
                                |})
                             validCandidates;
                       dimensions := dimensions;
                       overallWinner := id best |})).

End Ranking.

(** ** The specification's wording

    The definitions of this module follow the sentences of the specification,
    not the code; the theorems below compare them with the code. *)

Module Spec.

Local Open Scope Q_scope.

(** "[t] is a substring of [s]". *)
Definition substring (t s : string) : Prop :=
  exists pre post : string, s = pre ++ t ++ post.

(** The characters [normalize] strips: dots, dashes, underscores and
    whitespace. *)
Definition stripped (c : ascii) : bool :=
  Ascii.eqb c "." || Ascii.eqb c "-" || Ascii.eqb c "_" || JS.is_space c.

(** A code unit that lower-casing and stripping both leave in place. *)
Definition settled (c : ascii) : bool :=
  negb (stripped c) && Ascii.eqb (JS.lower_unit c) c.

Fixpoint every (p : ascii -> bool) (s : string) : bool :=
  match s with
  | EmptyString => true
  | String c s' => p c && every p s'
  end.

(** A name "consisting only of dots, dashes, underscores and whitespace". *)
Definition blank (s : string) : bool := every stripped s.

(** A token in which no alias source is left: it does not end in "js" and
    contains neither "reactjs" nor "nodejs". *)
Definition alias_free (y : string) : bool :=
  negb (JS.endsWith y "js")
  && negb (JS.includes y "reactjs")
  && negb (JS.includes y "nodejs").

(** The candidates of a comparison request that resolve, in request order. *)
Definition resolvable (findById : string -> option Ranking.Candidate)
    (candidateIds : list string) : list Ranking.Candidate :=
  Ranking.filter_Boolean (map findById candidateIds).

(** A stored score as a number; a score that is absent counts as 0. *)
Definition score_value (score : option Q) : Q :=
  match score with Some q => q | None => 0 end.

(** "[w] is the winner of the list for this score: the highest score, ties
    resolved by first-in-list precedence". *)
Definition first_highest (key : Ranking.Candidate -> option Q)
    (l : list Ranking.Candidate) (w : string) : Prop :=
  exists (i : nat) (c : Ranking.Candidate),
    nth_error l i = Some c
    /\ Ranking.id c = w
    /\ (forall c', In c' l -> score_value (key c') <= score_value (key c))
    /\ (forall j c', (j < i)%nat -> nth_error l j = Some c' ->
                     score_value (key c') < score_value (key c)).

Local Open Scope float_scope.

(** *** The weighted total *)

(** The fixed weight table: skills, experience, projects, education. *)
Definition weight_table : list float := [0.50; 0.25; 0.15; 0.10].

(** The sum of a list of numbers, taken from left to right. *)
Definition sum (l : list float) : float :=
  match l with
  | [] => 0
  | x :: l' => fold_left PrimFloat.add l' x
  end.

(** "[combine(dimensionScores) -> total]: round(sum of dimension_i *
    weight_i) using the fixed weight table". *)
Definition combine (dimensionScores : list float) : float :=
  Number.Math_round
    (sum (map (fun dw => fst dw * snd dw)
              (List.combine dimensionScores weight_table))).

(** The Score Record of a requirement profile and a candidate profile: the
    four dimension scores and their weighted total. *)
Definition score_record (jd : Matching.JD) (resume : Matching.Resume)
  : Matching.Scores :=
  let skills := Matching.calculateSkillsScore jd resume in
  let experience := Matching.calculateExperienceScore jd resume in
  let projects := Matching.calculateProjectsScore jd resume in
  let education := Matching.calculateEducationScore jd resume in
  {| Matching.total := combine [skills; experience; projects; education];
     Matching.skills_score := skills;
     Matching.experience_score := experience;
     Matching.projects_score := projects;
     Matching.education_score := education |}.

(** The fallback explanation, "built purely from the numeric scores": a
    summary "Candidate scored X/100 based on weighted evaluation..." and a
    recommendation taken from the total by a threshold. *)
Definition fallback_explanation (total : float) : Matching.BasicExplanation :=
  {| Matching.summary :=
       "Candidate scored " ++ Number.to_string total
       ++ "/100 based on weighted evaluation of skills, experience, projects, and education.";
     Matching.strengths := [];
     Matching.gaps := [];
     Matching.recommendation :=
       if 70 <=? total then "hire" else "maybe" |}.

(** The outcome asked of a scoring call whose explanation collaborator fails:
    it returns, with the Score Record and the fallback explanation. *)
Definition scored_with_fallback {Json : Type} (jd : Matching.JD)
    (resume : Matching.Resume) (r : JS.result (Matching.Match Json)) : Prop :=
  exists m,
    r = JS.Ok m
    /\ Matching.scores m = score_record jd resume
    /\ Matching.explanation m
       = Matching.Basic
           (fallback_explanation (Matching.total (score_record jd resume))).

(** The failures of the collaborator the specification names: "timeout,
    malformed output, non-2xx". *)
Inductive collaborator_failure {Json : Type}
    (JSON_parse : string -> JS.result Json)
  : PerplexityClient.Outcome -> Prop :=
| timeout (message : string) :
    collaborator_failure JSON_parse (PerplexityClient.Rejected message)
| non_2xx (status : Z) (text : string)
    (json : JS.result PerplexityClient.Data) :
    collaborator_failure JSON_parse
      (PerplexityClient.Responded false status text json)
| malformed_output (status : Z) (text : string)
    (choice : PerplexityClient.Choice) (rest : list PerplexityClient.Choice)
    (message : string) :
    PerplexityClient.parseJsonResponse Json JSON_parse
      (PerplexityClient.content choice) = JS.Throw message ->
    collaborator_failure JSON_parse
      (PerplexityClient.Responded true status text
         (JS.Ok {| PerplexityClient.choices := Some (choice :: rest) |})).


(** *** Skills *)





(** Substring containment in either direction. *)
Definition contains_either (a b : string) : bool :=
  JS.includes a b || JS.includes b a.

(** *** Experience *)














(** *** Projects *)

Definition required_tokens (jd : Matching.JD) : list string :=
  map (fun s =>
         Matching.normalizeSkillName
           (JS.or_str (Matching.normalized s) (Matching.name s)))
      (JS.or_list (Matching.required_skills jd)).

Definition technology_tokens (project : Matching.Project) : list string :=
  map (fun t => Matching.normalizeSkillName (Some t))
      (JS.or_list (Matching.technologies project)).

(** "The fraction of its technology tokens that satisfy substring
    containment against any required-skill token"; a project that lists no
    technology has fraction 0. *)
Definition relevance (required : list string) (project : Matching.Project)
  : float :=
  match technology_tokens project with
  | [] => 0
  | tokens =>
      Number.len (filter (fun t => existsb (contains_either t) required) tokens)
      / Number.len tokens
  end.

(** "A project counts as relevant if that fraction is nonzero". *)
Definition relevant (required : list string) (project : Matching.Project) : bool :=
  negb (relevance required project =? 0).

(** The relevance averaged over all the projects of the candidate. *)
Definition avgRelevance (required : list string)
    (projects : list Matching.Project) : float :=
  sum (map (relevance required) projects) / Number.len projects.

Definition projects_score (jd : Matching.JD) (resume : Matching.Resume) : float :=
  match JS.or_list (Matching.projects resume) with
  | [] => 50
  | projects =>
      if existsb (relevant (required_tokens jd)) projects
      then Number.Math_round
             (60 + Number.Math_min 40
                     (avgRelevance (required_tokens jd) projects * 100))
      else 40
  end.


End Spec.

(** ** Sample profiles and candidates *)

Module Sample.

Import Matching.

(** A collaborator that is down, and a parser that is never reached. *)
Definition fetch_503 (_ _ : string) : PerplexityClient.Outcome :=
  PerplexityClient.Responded false 503 "Service Unavailable"
    (JS.Throw "Unexpected token S in JSON at position 0").

Definition JSON_parse (_ : string) : JS.result unit :=
  JS.Throw "Unexpected end of JSON input".

Definition context (_ : JD) (_ : Resume) (_ : Scores) : string := "".

Definition candidate (i : string) (total s e p d : Q) : Ranking.Candidate :=
  {| Ranking.id := i;
     Ranking.name := i;
     Ranking.score_total := Some total;
     Ranking.score_skills := Some s;
     Ranking.score_experience := Some e;
     Ranking.score_projects := Some p;
     Ranking.score_education := Some d;
     Ranking.classification := None |}.

(** Three stored candidates; the first two tie on the total and on
    projects. *)
Definition findById (i : string) : option Ranking.Candidate :=
  if String.eqb i "a" then Some (candidate "a" 72 80 60 70 70)
  else if String.eqb i "b" then Some (candidate "b" 72 70 90 70 50)
  else if String.eqb i "c" then Some (candidate "c" 65 60 60 60 100)
  else None.

Local Open Scope float_scope.

Definition skill (n : string) (i : option float) : Skill :=
  {| name := Some n; normalized := None; importance := i |}.

(** A job asking for four years and three domains. *)
Definition jd : JD :=
  {| required_skills := Some [skill "React" (Some 5); skill "Node.js" None];
     preferred_skills := Some [skill "Docker" (Some 2)];
     jd_experience :=
       Some {| min_years := Some 4;
               max_years := None;
               required_domains := Some ["fintech"; "healthcare"; "retail"] |};
     jd_education := None |}.

(** A candidate with two years, in one of the three domains. *)
Definition resume : Resume :=
  {| skills := None;
     projects :=
       Some [ {| technologies := Some ["React"; "Redux"; "Jest"] |};
              {| technologies := Some ["Python"] |} ];
     resume_education := None;
     _computed :=
       Some {| skill_set := Some ["python"; "reactnative"];
               technology_set := Some ["react"; "redux"; "jest"; "python"];
               total_experience_years := Some 2;
               domains := Some ["FinTech"];
               highest_degree := Some "bachelor" |} |}.

(** Scenario 1 of the specification: five years required, six offered, no
    maximum, no domain list. *)
Definition jd_five_years : JD :=
  {| required_skills := Some [];
     preferred_skills := None;
     jd_experience :=
       Some {| min_years := Some 5; max_years := None;
               required_domains := None |};
     jd_education := None |}.

Definition resume_six_years : Resume :=
  {| skills := None; projects := None; resume_education := None;
     _computed :=
       Some {| skill_set := None; technology_set := None;
               total_experience_years := Some 6;
               domains := None; highest_degree := None |} |}.

(** Scenario 2 of the specification: "React" required with importance 5, no
    preferred skill, and a candidate without a matching token. *)
Definition jd_react : JD :=
  {| required_skills := Some [skill "React" (Some 5)];
     preferred_skills := None;
     jd_experience := None;
     jd_education := None |}.

Definition resume_python : Resume :=
  {| skills := None; projects := None; resume_education := None;
     _computed :=
       Some {| skill_set := Some ["python"]; technology_set := None;
               total_experience_years := None;
               domains := None; highest_degree := None |} |}.

(** Scenario 4 of the specification: a bachelor required, a master held, no
    preferred degree. *)
Definition jd_bachelor : JD :=
  {| required_skills := Some [];
     preferred_skills := None;
     jd_experience := None;
     jd_education :=
       Some {| min_degree := Some "bachelor"; preferred_degree := None;
               required_fields := None |} |}.

Definition resume_master : Resume :=
  {| skills := None; projects := None; resume_education := None;
     _computed :=
       Some {| skill_set := None; technology_set := None;
               total_experience_years := None;
               domains := None; highest_degree := Some "master" |} |}.



(** A job and a candidate with [years] of experience, nothing else. *)
Definition jd_years (years : float) : JD :=
  {| required_skills := None;
     preferred_skills := None;
     jd_experience :=
       Some {| min_years := Some years; max_years := None;
               required_domains := None |};
     jd_education := None |}.

Definition resume_years (years : float) : Resume :=
  {| skills := None; projects := None; resume_education := None;
     _computed :=
       Some {| skill_set := None; technology_set := None;
               total_experience_years := Some years;
               domains := None; highest_degree := None |} |}.

(** A senior position: twenty-six points of required skills, a doctorate,
    four years; and a junior candidate who has one point of them, one year,
    a bachelor's degree and two projects, one of them relevant by one
    technology in three.  The dimension scores are 3, 25, 77 and 42, and the
    weighted sum is the double below 23.5. *)
Definition jd_senior : JD :=
  {| required_skills :=
       Some [skill "Git" (Some 1); skill "Rust" (Some 5); skill "Kafka" (Some 5);
             skill "Scala" (Some 5); skill "Spark" (Some 5);
             skill "Terraform" (Some 5)];
     preferred_skills := Some [skill "Haskell" None];
     jd_experience :=
       Some {| min_years := Some 4; max_years := None;
               required_domains := None |};
     jd_education :=
       Some {| min_degree := Some "phd"; preferred_degree := None;
               required_fields := None |} |}.

Definition resume_junior : Resume :=
  {| skills := None;
     projects :=
       Some [ {| technologies := Some ["Git"; "Python"; "Flask"] |};
              {| technologies := Some ["Excel"] |} ];
     resume_education := None;
     _computed :=
       Some {| skill_set := Some ["git"; "python"];
               technology_set := Some ["flask"; "excel"];
               total_experience_years := Some 1;
               domains := None;
               highest_degree := Some "bachelor" |} |}.

(** One required skill that is not matched and four preferred skills of
    equal importance, three of them matched. *)
Definition jd_three_of_four : JD :=
  {| required_skills := Some [skill "Rust" None];
     preferred_skills :=
       Some [skill "Git" None; skill "Python" None; skill "Flask" None;
             skill "Kafka" None];
     jd_experience := None;
     jd_education := None |}.

(** Five projects against eight required skills: seven of eight, one of
    seven and three times two of seven technologies match. *)
Definition jd_eight_skills : JD :=
  {| required_skills :=
       Some [skill "a1" None; skill "a2" None; skill "a3" None;
             skill "a4" None; skill "a5" None; skill "a6" None;
             skill "a7" None; skill "b1" None];
     preferred_skills := None;
     jd_experience := None;
     jd_education := None |}.

Definition resume_five_projects : Resume :=
  {| skills := None;
     projects :=
       Some [ {| technologies :=
                   Some ["a1"; "a2"; "a3"; "a4"; "a5"; "a6"; "a7"; "zz"] |};
              {| technologies :=
                   Some ["a1"; "x2"; "x3"; "x4"; "x5"; "x6"; "x7"] |};
              {| technologies :=
                   Some ["a1"; "a2"; "x3"; "x4"; "x5"; "x6"; "x7"] |};
              {| technologies :=
                   Some ["a1"; "a2"; "x3"; "x4"; "x5"; "x6"; "x7"] |};
              {| technologies :=
                   Some ["a1"; "a2"; "x3"; "x4"; "x5"; "x6"; "x7"] |} ];
     resume_education := None;
     _computed := None |}.

End Sample.

(** ** Strings *)

(** Case analysis on every comparison with an unknown code unit. *)
Ltac split_units :=
  repeat match goal with
         | |- context [Ascii.eqb ?a ?b] =>
             first [is_var a | is_var b]; destruct (Ascii.eqb a b)
         end;
  vm_compute; congruence.

Lemma append_empty_r (s : string) : s ++ "" = s.
Proof. induction s as [|c s IH]; simpl; [reflexivity | now rewrite IH]. Qed.

Lemma strip_prefix_exact (pat s rest : string) :
  JS.strip_prefix false pat s = Some rest <-> s = pat ++ rest.
Proof.
  revert s; induction pat as [|p pat IH]; intros s; simpl.
  - split; intros H; [now inversion H | now subst].
  - destruct s as [|c s]; [split; discriminate|].
    unfold JS.unit_eqb. destruct (Ascii.eqb p c) eqn:E.
    + apply Ascii.eqb_eq in E; subst c. rewrite IH.
      split; intros H; [now subst | now inversion H].
    + apply Ascii.eqb_neq in E. split; [discriminate|].
      intros H; inversion H; congruence.
Qed.

Lemma startsWith_spec (s t : string) :
  JS.startsWith s t = true <-> exists post, s = t ++ post.
Proof.
  unfold JS.startsWith.
  destruct (JS.strip_prefix false t s) as [rest|] eqn:E.
  - apply strip_prefix_exact in E. split; [eauto | reflexivity].
  - split; [discriminate|]. intros [post H].
    apply strip_prefix_exact in H. congruence.
Qed.

Lemma includes_spec (s t : string) :
  JS.includes s t = true <-> Spec.substring t s.
Proof.
  unfold Spec.substring.
  induction s as [|c s IH]; simpl; rewrite orb_true_iff, startsWith_spec.
  - split.
    + intros [[post H]|H]; [|discriminate]. exists "", post. exact H.
    + intros [pre [post H]]. left.
      destruct pre; simpl in H; [eauto | discriminate].
  - rewrite IH. split.
    + intros [[post H]|[pre [post H]]].
      * exists "", post. exact H.
      * exists (String c pre), post. simpl. now rewrite H.
    + intros [[|x pre] [post H]]; simpl in H.
      * left. eauto.
      * right. inversion H; subst. eauto.
Qed.

Lemma includes_empty (s : string) : JS.includes s "" = true.
Proof. destruct s; reflexivity. Qed.

Lemma Set_has_In (S : list string) (x : string) :
  JS.Set_has S x = true <-> In x S.
Proof.
  unfold JS.Set_has. rewrite existsb_exists. split.
  - intros [y [Hy E]]. apply String.eqb_eq in E. now subst.
  - intros H. exists x. split; [exact H | apply String.eqb_refl].
Qed.

(** C5. [hasSkill(S, n)] is true exactly when [S] holds the normalised name,
    or some token of [S] is a substring of the normalised name, or the
    normalised name is a substring of some token of [S]; so "React Native"
    and "React" match each other in both directions. *)
Theorem hasSkill_bidirectional_containment :
  (forall (S : list string) (n : option string),
      Matching.hasSkill S n = true <->
      In (Matching.normalizeSkillName n) S
      \/ exists t, In t S
                   /\ (Spec.substring t (Matching.normalizeSkillName n)
                       \/ Spec.substring (Matching.normalizeSkillName n) t))
  /\ Matching.hasSkill ["react"] (Some "React Native") = true
  /\ Matching.hasSkill ["reactnative"] (Some "React") = true.
Proof.
  split; [|split; reflexivity].
  intros S n. unfold Matching.hasSkill.
  destruct (JS.Set_has S (Matching.normalizeSkillName n)) eqn:E.
  - apply Set_has_In in E. split; [now left | reflexivity].
  - rewrite existsb_exists. split.
    + intros [t [Ht H]]. right. exists t. split; [exact Ht|].
      apply orb_true_iff in H. rewrite !includes_spec in H. tauto.
    + intros [H|[t [Ht H]]].
      * apply Set_has_In in H. congruence.
      * exists t. split; [exact Ht|].
        apply orb_true_iff. rewrite !includes_spec. tauto.
Qed.

Lemma removeAll_blank (s : string) :
  Spec.blank s = true -> JS.removeAll Spec.stripped s = "".
Proof.
  unfold Spec.blank.
  induction s as [|c s IH]; simpl; [reflexivity|].
  intros H. apply andb_true_iff in H as [Hc Hs]. now rewrite Hc, IH.
Qed.

Lemma lower_unit_stripped (c : ascii) :
  Spec.stripped c = true -> JS.lower_unit c = c.
Proof.
  destruct c as [[] [] [] [] [] [] [] []]; vm_compute; congruence.
Qed.

Lemma toLowerCase_blank (s : string) :
  Spec.blank s = true -> JS.toLowerCase s = s.
Proof.
  unfold Spec.blank.
  induction s as [|c s IH]; simpl; [reflexivity|].
  intros H. apply andb_true_iff in H as [Hc Hs].
  now rewrite (lower_unit_stripped c Hc), IH.
Qed.

(** C10. A required name that normalises to the empty token is matched by
    every non-empty token set, the empty token being a substring of any
    token; the absent name, the empty name and every name made only of dots,
    dashes, underscores and whitespace normalise to the empty token. *)
Theorem hasSkill_empty_token :
  (forall (S : list string) (n : option string),
      S <> [] -> Matching.normalizeSkillName n = "" ->
      Matching.hasSkill S n = true)
  /\ Matching.normalizeSkillName None = ""
  /\ (forall s, Spec.blank s = true -> Matching.normalizeSkillName (Some s) = "").
Proof.
  split; [|split; [reflexivity|]].
  - intros S n HS Hn. unfold Matching.hasSkill. rewrite Hn.
    destruct (JS.Set_has S "") eqn:E; [reflexivity|].
    destruct S as [|t S]; [congruence|].
    simpl. now rewrite includes_empty.
  - intros s Hs. unfold Matching.normalizeSkillName.
    destruct s as [|c s]; [reflexivity|].
    rewrite (toLowerCase_blank _ Hs).
    change (JS.removeAll _ (String c s)) with (JS.removeAll Spec.stripped (String c s)).
    rewrite (removeAll_blank _ Hs). reflexivity.
Qed.

Lemma hasSkill_empty_token_witness :
  ["python"; "sql"] <> [] /\ Matching.normalizeSkillName (Some " ._- ") = ""
  /\ Matching.hasSkill ["python"; "sql"] (Some " ._- ") = true.
Proof.
  assert (H1 : ["python"; "sql"] <> []) by discriminate.
  assert (H2 : Matching.normalizeSkillName (Some " ._- ") = "") by reflexivity.
  split; [exact H1 | split; [exact H2|]].
  exact (proj1 hasSkill_empty_token ["python"; "sql"] (Some " ._- ") H1 H2).
Defined.

(** ** The normaliser *)

Lemma lower_unit_idem (c : ascii) : JS.lower_unit (JS.lower_unit c) = JS.lower_unit c.
Proof. destruct c as [[] [] [] [] [] [] [] []]; reflexivity. Qed.

(** On a settled code unit the [i] flag changes nothing for a pattern letter
    in a-z. *)
Lemma unit_eqb_settled (p c : ascii) :
  JS.in_range 97 122 p = true -> Spec.settled c = true ->
  JS.unit_eqb true p c = JS.unit_eqb false p c.
Proof.
  intros Hp Hc.
  destruct p as [[] [] [] [] [] [] [] []]; try discriminate Hp;
    destruct c as [[] [] [] [] [] [] [] []]; try discriminate Hc; reflexivity.
Qed.

Lemma every_append (p : ascii -> bool) (a b : string) :
  Spec.every p (a ++ b) = Spec.every p a && Spec.every p b.
Proof.
  induction a as [|c a IH]; simpl; [reflexivity|].
  now rewrite IH, andb_assoc.
Qed.

Lemma toLowerCase_settled (s : string) :
  Spec.every Spec.settled s = true -> JS.toLowerCase s = s.
Proof.
  induction s as [|c s IH]; simpl; [reflexivity|].
  intros H. apply andb_true_iff in H as [Hc Hs].
  unfold Spec.settled in Hc. apply andb_true_iff in Hc as [_ Hc].
  apply Ascii.eqb_eq in Hc. now rewrite Hc, IH.
Qed.

Lemma removeAll_settled (s : string) :
  Spec.every Spec.settled s = true -> JS.removeAll Spec.stripped s = s.
Proof.
  induction s as [|c s IH]; simpl; [reflexivity|].
  intros H. apply andb_true_iff in H as [Hc Hs].
  unfold Spec.settled in Hc. apply andb_true_iff in Hc as [Hc _].
  apply negb_true_iff in Hc. now rewrite Hc, IH.
Qed.

(** Lower-casing then stripping leaves only settled code units. *)
Lemma settled_after_strip (s : string) :
  Spec.every Spec.settled (JS.removeAll Spec.stripped (JS.toLowerCase s)) = true.
Proof.
  induction s as [|c s IH]; simpl; [reflexivity|].
  destruct (Spec.stripped (JS.lower_unit c)) eqn:E; [exact IH|].
  simpl. rewrite IH, andb_true_r. unfold Spec.settled.
  now rewrite E, lower_unit_idem, Ascii.eqb_refl.
Qed.

Lemma strip_prefix_every (p : ascii -> bool) (i : bool) (pat s rest : string) :
  JS.strip_prefix i pat s = Some rest ->
  Spec.every p s = true -> Spec.every p rest = true.
Proof.
  revert s; induction pat as [|x pat IH]; intros s; simpl.
  - intros H; now inversion H.
  - destruct s as [|c s]; [discriminate|].
    destruct (JS.unit_eqb i x c); [|discriminate].
    simpl. intros H Hs. apply andb_true_iff in Hs as [_ Hs]. eauto.
Qed.

Lemma match_here_every (p : ascii -> bool) (re : JS.regex) (s rest : string) :
  JS.match_here re s = Some rest ->
  Spec.every p s = true -> Spec.every p rest = true.
Proof.
  unfold JS.match_here.
  destruct (JS.strip_prefix (JS.re_i re) (JS.re_lit re) s) as [r|] eqn:E;
    [|discriminate].
  intros H Hs. pose proof (strip_prefix_every p _ _ _ _ E Hs) as Hr.
  destruct r; [now inversion H|].
  destruct (JS.re_eol re); [discriminate | now inversion H].
Qed.

(** A replacement keeps a property of all code units that its replacement
    text has. *)
Lemma replace_every (p : ascii -> bool) (re : JS.regex) (rep s : string) :
  Spec.every p rep = true -> Spec.every p s = true ->
  Spec.every p (JS.replace re rep s) = true.
Proof.
  intros Hrep. unfold JS.replace. destruct (JS.re_bol re).
  - destruct (JS.match_here re s) as [rest|] eqn:E; [|trivial].
    intros Hs. rewrite every_append, Hrep. simpl.
    eapply match_here_every; eauto.
  - induction s as [|c s IH]; simpl.
    + destruct (JS.match_here re "") as [rest|] eqn:E; [|trivial].
      intros Hs. rewrite every_append, Hrep. simpl.
      eapply match_here_every; eauto.
    + destruct (JS.match_here re (String c s)) as [rest|] eqn:E.
      * intros Hs. rewrite every_append, Hrep. simpl.
        eapply match_here_every; eauto.
      * simpl. intros Hs. apply andb_true_iff in Hs as [Hc Hs].
        now rewrite Hc, IH.
Qed.

(** The engine's normaliser returns settled tokens. *)
Lemma normalizeSkillName_settled (n : option string) :
  Spec.every Spec.settled (Matching.normalizeSkillName n) = true.
Proof.
  destruct n as [[|c s]|]; try reflexivity.
  unfold Matching.normalizeSkillName.
  repeat (apply replace_every; [reflexivity|]).
  apply settled_after_strip.
Qed.

Lemma strip_prefix_settled (pat s : string) :
  Spec.every (JS.in_range 97 122) pat = true ->
  Spec.every Spec.settled s = true ->
  JS.strip_prefix true pat s = JS.strip_prefix false pat s.
Proof.
  revert s; induction pat as [|p pat IH]; intros s; [reflexivity|].
  cbn [Spec.every JS.strip_prefix].
  intros Hp Hs. apply andb_true_iff in Hp as [Hp Hpat].
  destruct s as [|c s]; [reflexivity|].
  cbn [Spec.every] in Hs. apply andb_true_iff in Hs as [Hc Hs].
  rewrite (unit_eqb_settled p c Hp Hc), (IH s Hpat Hs). reflexivity.
Qed.

(** No occurrence, no replacement: an unanchored pattern. *)
Lemma replace_absent (lit rep s : string) :
  Spec.every (JS.in_range 97 122) lit = true ->
  Spec.every Spec.settled s = true ->
  JS.includes s lit = false ->
  JS.replace (JS.Regex false lit false true) rep s = s.
Proof.
  intros Hlit. unfold JS.replace. simpl.
  induction s as [|c s IH]; intros Hs Hinc.
  - simpl in *. unfold JS.match_here, JS.startsWith in *. simpl in *.
    rewrite (strip_prefix_settled lit "" Hlit eq_refl).
    destruct (JS.strip_prefix false lit ""); [discriminate | reflexivity].
  - simpl in Hinc. apply orb_false_iff in Hinc as [Hst Hinc].
    simpl in Hs. pose proof Hs as Hs'. apply andb_true_iff in Hs' as [_ Hs'].
    cbn [JS.replace_from]. unfold JS.match_here. cbn [JS.re_i JS.re_lit JS.re_eol].
    rewrite (strip_prefix_settled lit (String c s) Hlit Hs).
    unfold JS.startsWith in Hst.
    destruct (JS.strip_prefix false lit (String c s)); [discriminate|].
    now rewrite (IH Hs' Hinc).
Qed.

(** No occurrence at the end, no replacement: a pattern anchored by [$]. *)
Lemma replace_absent_at_end (lit rep s : string) :
  Spec.every (JS.in_range 97 122) lit = true ->
  Spec.every Spec.settled s = true ->
  JS.endsWith s lit = false ->
  JS.replace (JS.Regex false lit true true) rep s = s.
Proof.
  intros Hlit. unfold JS.replace. simpl.
  assert (Hno : forall t, Spec.every Spec.settled t = true ->
                          String.eqb t lit = false ->
                          JS.match_here (JS.Regex false lit true true) t = None).
  { intros t Ht Hne. unfold JS.match_here. cbn [JS.re_i JS.re_lit JS.re_eol].
    rewrite (strip_prefix_settled lit t Hlit Ht).
    destruct (JS.strip_prefix false lit t) as [r|] eqn:E; [|reflexivity].
    destruct r; [|reflexivity].
    apply strip_prefix_exact in E. rewrite append_empty_r in E. subst t.
    now rewrite String.eqb_refl in Hne. }
  induction s as [|c s IH]; intros Hs Hend.
  - simpl in Hend. rewrite orb_false_r in Hend.
    cbn [JS.replace_from]. now rewrite (Hno "" eq_refl Hend).
  - simpl in Hend. apply orb_false_iff in Hend as [Hne Hend].
    simpl in Hs. pose proof Hs as Hs'. apply andb_true_iff in Hs' as [_ Hs'].
    cbn [JS.replace_from]. rewrite (Hno (String c s) Hs Hne).
    now rewrite (IH Hs' Hend).
Qed.

(** A settled token without alias source is a fixed point of the chain. *)
Lemma normalizeSkillName_fixed_point (y : string) :
  Spec.every Spec.settled y = true -> Spec.alias_free y = true ->
  Matching.normalizeSkillName (Some y) = y.
Proof.
  intros Hs H. unfold Spec.alias_free in H.
  apply andb_true_iff in H as [H Hnode]. apply andb_true_iff in H as [Hjs Hreact].
  apply negb_true_iff in Hjs, Hreact, Hnode.
  destruct y as [|c y]; [reflexivity|].
  unfold Matching.normalizeSkillName.
  rewrite (toLowerCase_settled _ Hs).
  change (JS.removeAll _ (String c y))
    with (JS.removeAll Spec.stripped (String c y)).
  rewrite (removeAll_settled _ Hs).
  rewrite (replace_absent_at_end "js" _ _ eq_refl Hs Hjs).
  rewrite (replace_absent "reactjs" _ _ eq_refl Hs Hreact).
  rewrite (replace_absent "nodejs" _ _ eq_refl Hs Hnode).
  reflexivity.
Qed.

Lemma endsWith_split (s t : string) :
  JS.endsWith s t = true -> exists p, s = p ++ t.
Proof.
  induction s as [|c s IH]; cbn [JS.endsWith]; rewrite orb_true_iff.
  - intros [H|H]; [|discriminate]. apply String.eqb_eq in H. now exists "".
  - intros [H|H].
    + apply String.eqb_eq in H. now exists "".
    + destruct (IH H) as [p Hp]. exists (String c p). simpl. now rewrite Hp.
Qed.

(** The trailing "js" is the only match of [/js$/i] in a settled string. *)
Lemma replace_trailing_js (p : string) :
  Spec.every Spec.settled (p ++ "js") = true ->
  JS.replace (JS.Regex false "js" true true) "javascript" (p ++ "js")
  = p ++ "javascript".
Proof.
  unfold JS.replace. cbn [JS.re_bol].
  induction p as [|c p IH]; intros Hs; [reflexivity|].
  cbn [append JS.replace_from].
  change (String c p ++ "js") with (String c (p ++ "js")) in Hs.
  assert (Hm : JS.match_here (JS.Regex false "js" true true)
                 (String c (p ++ "js")) = None).
  { unfold JS.match_here. cbn [JS.re_i JS.re_lit JS.re_eol].
    rewrite (strip_prefix_settled "js" _ eq_refl Hs).
    destruct (JS.strip_prefix false "js" (String c (p ++ "js"))) as [r|] eqn:E;
      [|reflexivity].
    destruct r; [|reflexivity].
    apply strip_prefix_exact in E. exfalso.
    destruct p as [|c1 [|c2 p]]; discriminate E. }
  rewrite Hm. f_equal. apply IH.
  simpl in Hs. now apply andb_true_iff in Hs as [_ Hs].
Qed.

(** Rewriting a trailing "js" to "javascript" creates no "reactjs" and no
    "nodejs": neither word can run into "javascript". *)
Lemma startsWith_reactjs_trailing (q : string) :
  JS.startsWith (q ++ "js") "reactjs" = false ->
  JS.startsWith (q ++ "javascript") "reactjs" = false.
Proof.
  unfold JS.startsWith.
  destruct q as [|c1 [|c2 [|c3 [|c4 [|c5 [|c6 [|c7 q]]]]]]];
    cbn [append JS.strip_prefix JS.unit_eqb]; split_units.
Qed.

Lemma startsWith_nodejs_trailing (q : string) :
  JS.startsWith (q ++ "js") "nodejs" = false ->
  JS.startsWith (q ++ "javascript") "nodejs" = false.
Proof.
  unfold JS.startsWith.
  destruct q as [|c1 [|c2 [|c3 [|c4 [|c5 [|c6 q]]]]]];
    cbn [append JS.strip_prefix JS.unit_eqb]; split_units.
Qed.

Lemma includes_reactjs_trailing (p : string) :
  JS.includes (p ++ "js") "reactjs" = false ->
  JS.includes (p ++ "javascript") "reactjs" = false.
Proof.
  induction p as [|c p IH]; [reflexivity|].
  cbn [append JS.includes]. rewrite !orb_false_iff. intros [H1 H2].
  split; [|now apply IH].
  now apply (startsWith_reactjs_trailing (String c p)).
Qed.

Lemma includes_nodejs_trailing (p : string) :
  JS.includes (p ++ "js") "nodejs" = false ->
  JS.includes (p ++ "javascript") "nodejs" = false.
Proof.
  induction p as [|c p IH]; [reflexivity|].
  cbn [append JS.includes]. rewrite !orb_false_iff. intros [H1 H2].
  split; [|now apply IH].
  now apply (startsWith_nodejs_trailing (String c p)).
Qed.

Lemma endsWith_js_javascript (p : string) :
  JS.endsWith (p ++ "javascript") "js" = false.
Proof.
  induction p as [|c p IH]; [reflexivity|].
  cbn [append JS.endsWith]. rewrite IH, orb_false_r.
  destruct p as [|c1 [|c2 p]]; cbn [append String.eqb]; split_units.
Qed.

(** The first step of the chain already yields an alias-free token when the
    stripped text holds neither "reactjs" nor "nodejs". *)
Lemma trailing_step_alias_free (s : string) :
  Spec.every Spec.settled s = true ->
  JS.includes s "reactjs" = false -> JS.includes s "nodejs" = false ->
  Spec.alias_free
    (JS.replace (JS.Regex false "js" true true) "javascript" s) = true.
Proof.
  intros Hs Hr Hn. unfold Spec.alias_free.
  destruct (JS.endsWith s "js") eqn:E.
  - destruct (endsWith_split _ _ E) as [p Hp]. subst s.
    rewrite (replace_trailing_js p Hs).
    now rewrite endsWith_js_javascript, includes_reactjs_trailing,
      includes_nodejs_trailing.
  - rewrite (replace_absent_at_end "js" _ _ eq_refl Hs E).
    now rewrite E, Hr, Hn.
Qed.

(** C7, as the code has it. [normalize] leaves its own result unchanged when
    that result holds no alias source any more (it does not end in "js" and
    contains neither "reactjs" nor "nodejs"); this is so, in particular, for
    every name whose lower-cased, stripped text contains neither "reactjs"
    nor "nodejs". *)
Theorem normalizeSkillName_idempotent_when_alias_free :
  (forall x : option string,
      Spec.alias_free (Matching.normalizeSkillName x) = true ->
      Matching.normalizeSkillName (Some (Matching.normalizeSkillName x))
      = Matching.normalizeSkillName x)
  /\ (forall x : string,
         JS.includes (JS.removeAll Spec.stripped (JS.toLowerCase x)) "reactjs"
         = false ->
         JS.includes (JS.removeAll Spec.stripped (JS.toLowerCase x)) "nodejs"
         = false ->
         Matching.normalizeSkillName
           (Some (Matching.normalizeSkillName (Some x)))
         = Matching.normalizeSkillName (Some x)).
Proof.
  split.
  - intros x H. apply normalizeSkillName_fixed_point;
      [apply normalizeSkillName_settled | exact H].
  - intros x Hr Hn.
    apply normalizeSkillName_fixed_point; [apply normalizeSkillName_settled|].
    destruct x as [|c x]; [reflexivity|].
    unfold Matching.normalizeSkillName.
    change (JS.removeAll _ (JS.toLowerCase (String c x)))
      with (JS.removeAll Spec.stripped (JS.toLowerCase (String c x))).
    pose proof (settled_after_strip (String c x)) as Hs.
    pose proof (trailing_step_alias_free _ Hs Hr Hn) as Ha.
    pose proof (replace_every Spec.settled (JS.Regex false "js" true true)
                  "javascript" _ eq_refl Hs) as Hs1.
    unfold Spec.alias_free in Ha.
    apply andb_true_iff in Ha as [Ha Hnode].
    apply andb_true_iff in Ha as [Hjs Hreact].
    rewrite (replace_absent "reactjs" _ _ eq_refl Hs1
               (proj1 (negb_true_iff _) Hreact)).
    rewrite (replace_absent "nodejs" _ _ eq_refl Hs1
               (proj1 (negb_true_iff _) Hnode)).
    unfold Spec.alias_free. now rewrite Hjs, Hreact, Hnode.
Qed.

Lemma normalizeSkillName_idempotent_witness :
  Spec.alias_free (Matching.normalizeSkillName (Some "Node.js")) = true
  /\ Matching.normalizeSkillName (Some (Matching.normalizeSkillName (Some "Node.js")))
     = Matching.normalizeSkillName (Some "Node.js")
  /\ JS.includes (JS.removeAll Spec.stripped (JS.toLowerCase "C++ / JS")) "reactjs"
     = false
  /\ JS.includes (JS.removeAll Spec.stripped (JS.toLowerCase "C++ / JS")) "nodejs"
     = false
  /\ Matching.normalizeSkillName
       (Some (Matching.normalizeSkillName (Some "C++ / JS")))
     = Matching.normalizeSkillName (Some "C++ / JS").
Proof.
  split; [reflexivity|].
  split.
  - apply (proj1 normalizeSkillName_idempotent_when_alias_free (Some "Node.js")).
    reflexivity.
  - split; [reflexivity|]. split; [reflexivity|].
    apply (proj2 normalizeSkillName_idempotent_when_alias_free "C++ / JS");
      reflexivity.
Defined.

(** C7, as stated, fails: one pass over "ReactJS JSX" removes the first "js"
    of "reactjsjsx" and leaves "reactjsx", which a second pass shortens
    again. *)
Lemma normalizeSkillName_not_idempotent :
  Matching.normalizeSkillName (Some "ReactJS JSX") = "reactjsx"
  /\ Matching.normalizeSkillName
       (Some (Matching.normalizeSkillName (Some "ReactJS JSX"))) = "reactx"
  /\ Matching.normalizeSkillName
       (Some (Matching.normalizeSkillName (Some "ReactJS JSX")))
     <> Matching.normalizeSkillName (Some "ReactJS JSX").
Proof. repeat split; try reflexivity. discriminate. Qed.

(** C6. The alias table does not work as the specification describes it.
    The rewriting of a trailing "js" runs first, so a name that ends in
    "reactjs", "nodejs", "vuejs" or "angularjs" has become
    "...javascript" before its own alias is tried, in the engine's normaliser
    and in the one the intelligence services share; the engine's normaliser
    moreover has no rule for a leading "js", for "vuejs" or for "angularjs".
    Lower-casing, stripping and the empty token are as described. *)
Theorem normalizeSkillName_alias_table_shadowed :
  Matching.normalizeSkillName (Some "React.js") = "reactjavascript"
  /\ Matching.normalizeSkillName (Some "reactjs") = "reactjavascript"
  /\ Matching.normalizeSkillName (Some "Node.js") = "nodejavascript"
  /\ Matching.normalizeSkillName (Some "Vue.js") = "vuejavascript"
  /\ Matching.normalizeSkillName (Some "AngularJS") = "angularjavascript"
  /\ Matching.normalizeSkillName (Some "JS Frameworks") = "jsframeworks"
  /\ Matching.normalizeSkillName (Some "VueJS 3") = "vuejs3"
  /\ ResumeIntelligence.normalizeSkillName (Some "React.js") = "reactjavascript"
  /\ ResumeIntelligence.normalizeSkillName (Some "Node.js") = "nodejavascript"
  /\ ResumeIntelligence.normalizeSkillName (Some "Vue.js") = "vuejavascript"
  /\ ResumeIntelligence.normalizeSkillName (Some "AngularJS") = "angularjavascript"
  /\ ResumeIntelligence.normalizeSkillName (Some "JS Frameworks")
     = "javascriptframeworks"
  /\ ResumeIntelligence.normalizeSkillName (Some "VueJS 3") = "vue3"
  /\ JDIntelligence.normalizeSkillName (Some "React.js") = "reactjavascript"
  /\ Matching.normalizeSkillName (Some "Type_Script-4.9 ") = "typescript49"
  /\ Matching.normalizeSkillName (Some "") = ""
  /\ Matching.normalizeSkillName None = "".
Proof. repeat split; reflexivity. Qed.

(** ** Stored scores *)

Lemma gt_true (a b : Q) : JS.gt a b = true <-> (b < a)%Q.
Proof.
  unfold JS.gt. rewrite negb_true_iff. split.
  - intros H. apply Qnot_le_lt. intros Hle.
    apply Qle_bool_iff in Hle. congruence.
  - intros H. destruct (Qle_bool a b) eqn:E; [|reflexivity].
    apply Qle_bool_iff in E. exfalso. apply (Qlt_not_le _ _ H E).
Qed.

Lemma gt_false (a b : Q) : JS.gt a b = false <-> (a <= b)%Q.
Proof.
  unfold JS.gt. rewrite negb_false_iff. apply Qle_bool_iff.
Qed.

Lemma or_num_value (o : option Q) : (JS.or_num o 0 == Spec.score_value o)%Q.
Proof.
  destruct o as [q|]; simpl; [|reflexivity].
  destruct (Qeq_bool q 0) eqn:E; [|reflexivity].
  apply Qeq_bool_iff in E. now rewrite E.
Qed.

(** ** Doubles *)

Lemma SFcompare_key (x y : spec_float) :
  x <> S754_nan -> y <> S754_nan ->
  match SFcompare x y with
  | Some Lt => Double.lex_lt (Double.SFkey x) (Double.SFkey y)
  | Some Eq => Double.lex_eq (Double.SFkey x) (Double.SFkey y)
  | Some Gt => Double.lex_lt (Double.SFkey y) (Double.SFkey x)
  | None => False
  end.
Proof.
  intros Hx Hy.
  destruct x as [sx|sx| |sx mx ex], y as [sy|sy| |sy my ey];
    try congruence;
    try (destruct sx; try destruct sy; cbn; lia);
    try (destruct sy; cbn; lia).
  destruct sx, sy; cbn [SFcompare Double.SFkey]; try (cbn; lia).
  - destruct (Z.compare_spec ex ey) as [E|E|E]; try (cbn; lia).
    subst. rewrite Pos.compare_cont_spec. cbn [Pos.switch_Eq].
    destruct (Pos.compare_spec mx my) as [F|F|F]; cbn; lia.
  - destruct (Z.compare_spec ex ey) as [E|E|E]; try (cbn; lia).
    subst. rewrite Pos.compare_cont_spec. cbn [Pos.switch_Eq].
    destruct (Pos.compare_spec mx my) as [F|F|F]; cbn; lia.
Qed.

Lemma ltb_true (x y : float) :
  (x <? y)%float = true <-> Double.is_number x /\ Double.is_number y /\ Double.lex_lt (Double.key x) (Double.key y).
Proof.
  rewrite ltb_spec. unfold SFltb, Double.is_number, Double.key.
  destruct (Prim2SF x) as [sx|sx| |sx mx ex] eqn:Ex;
    [| | split; [discriminate | intros [H _]; congruence] |];
    (destruct (Prim2SF y) as [sy|sy| |sy my ey] eqn:Ey;
     [| | split; [destruct sx; discriminate | intros [_ [H _]]; congruence] |]);
    match goal with
    | |- context [SFcompare ?a ?b] =>
        pose proof (SFcompare_key a b ltac:(discriminate) ltac:(discriminate)) as K;
        pose proof (SFcompare_key b a ltac:(discriminate) ltac:(discriminate)) as K';
        destruct (SFcompare a b) as [[]|]; destruct (SFcompare b a) as [[]|];
        try contradiction;
        (split; [intros H; try discriminate; repeat split; try discriminate; exact K
                | intros [_ [_ H]]; try reflexivity; exfalso;
                  destruct (Double.SFkey a) as [[? ?] ?], (Double.SFkey b) as [[? ?] ?];
                  cbn in *; lia])
    end.
Qed.

Lemma leb_true (x y : float) :
  (x <=? y)%float = true <-> Double.is_number x /\ Double.is_number y /\ Double.lex_le (Double.key x) (Double.key y).
Proof.
  rewrite leb_spec. unfold SFleb, Double.is_number, Double.key, Double.lex_le.
  destruct (Prim2SF x) as [sx|sx| |sx mx ex] eqn:Ex;
    [| | split; [discriminate | intros [H _]; congruence] |];
    (destruct (Prim2SF y) as [sy|sy| |sy my ey] eqn:Ey;
     [| | split; [destruct sx; discriminate | intros [_ [H _]]; congruence] |]);
    match goal with
    | |- context [SFcompare ?a ?b] =>
        pose proof (SFcompare_key a b ltac:(discriminate) ltac:(discriminate)) as K;
        destruct (SFcompare a b) as [[]|];
        try contradiction;
        (split; [intros H; try discriminate; repeat split; try discriminate; tauto
                | intros [_ [_ H]]; try reflexivity; exfalso;
                  destruct (Double.SFkey a) as [[? ?] ?], (Double.SFkey b) as [[? ?] ?];
                  cbn in *; lia])
    end.
Qed.

Ltac keys :=
  unfold Double.lex_le, Double.lex_lt, Double.lex_eq in *;
  repeat match goal with
         | |- context [Double.key ?x] =>
             let a := fresh "k" in let b := fresh "k" in let c := fresh "k" in
             destruct (Double.key x) as [[a b] c]
         | H : context [Double.key ?x] |- _ =>
             let a := fresh "k" in let b := fresh "k" in let c := fresh "k" in
             destruct (Double.key x) as [[a b] c]
         end;
  cbn in *; try lia.




Lemma leb_ltb_trans (a b c : float) :
  (a <=? b)%float = true -> (b <? c)%float = true -> (a <? c)%float = true.
Proof.
  intros H1 H2. apply leb_true in H1. apply ltb_true in H2.
  destruct H1 as [Ha [Hb H1]], H2 as [_ [Hc H2]].
  apply ltb_true. repeat split; try assumption. keys.
Qed.

Lemma leb_trans (a b c : float) :
  (a <=? b)%float = true -> (b <=? c)%float = true -> (a <=? c)%float = true.
Proof.
  intros H1 H2. apply leb_true in H1. apply leb_true in H2.
  destruct H1 as [Ha [Hb H1]], H2 as [_ [Hc H2]].
  apply leb_true. repeat split; try assumption. keys.
Qed.


Lemma ltb_false (a b : float) :
  Double.is_number a -> Double.is_number b -> (a <? b)%float = false -> (b <=? a)%float = true.
Proof.
  intros Ha Hb H. apply leb_true. repeat split; try assumption.
  assert (N : ~ Double.lex_lt (Double.key a) (Double.key b)).
  { intros L. assert (T : (a <? b)%float = true) by (apply ltb_true; auto).
    congruence. }
  keys.
Qed.


Lemma ltb_number (a b : float) :
  (a <? b)%float = true -> Double.is_number a /\ Double.is_number b.
Proof. intros H. apply ltb_true in H. tauto. Qed.

(** ** Sums, products and quotients *)















(** ** Rounding a positive mantissa *)












(** ** The length of an array, as a double *)














(** ** The weighted total and the explanation *)

(** The total of the code is the [combine] of the specification. *)
Lemma weighted_total_combine (s e p d : float) :
  Number.Math_round
    (s * Config.skills Matching.weights
     + e * Config.experience Matching.weights
     + p * Config.projects Matching.weights
     + d * Config.education Matching.weights)%float
  = Spec.combine [s; e; p; d].
Proof. reflexivity. Qed.

(** What [calculateMatch] returns, whatever the collaborator does. *)
Lemma calculateMatch_returns (Json : Type)
    (complete : string -> string -> JS.result Json) (prompt : string)
    (context : Matching.JD -> Matching.Resume -> Matching.Scores -> string)
    (jd : Matching.JD) (resume : Matching.Resume) :
  exists m,
    Matching.calculateMatch Json complete prompt context jd resume = JS.Ok m
    /\ Matching.scores m = Spec.score_record jd resume
    /\ Matching.explanation m
       = match complete prompt (context jd resume (Spec.score_record jd resume))
         with
         | JS.Ok reply => Matching.Narrated reply
         | JS.Throw _ =>
             Matching.Basic
               (Spec.fallback_explanation
                  (Matching.total (Spec.score_record jd resume)))
         end.
Proof.
  unfold Matching.calculateMatch, Matching.generateExplanation.
  cbv zeta. rewrite weighted_total_combine.
  fold (Spec.score_record jd resume).
  destruct (complete prompt (context jd resume (Spec.score_record jd resume)))
    as [reply|msg];
    cbn [JS.bind JS.try_catch]; eexists; repeat split.
Qed.


(** The client throws on each failure the specification names. *)
Lemma complete_throws (Json : Type) (JSON_parse : string -> JS.result Json)
    (apiKey : option string)
    (fetch : string -> string -> PerplexityClient.Outcome)
    (systemPrompt userContent : string) :
  Spec.collaborator_failure JSON_parse (fetch systemPrompt userContent) ->
  exists message,
    PerplexityClient.complete Json JSON_parse apiKey fetch systemPrompt
      userContent = JS.Throw message.
Proof.
  intros H. unfold PerplexityClient.complete.
  destruct (PerplexityClient.validateConfig apiKey) as [[]|m]; cbn [JS.bind];
    [|eauto].
  inversion H as [message E|status text json E|status text choice rest message P E];
    cbn [negb JS.bind JS.try_catch PerplexityClient.choices]; eauto.
  rewrite P. cbn [JS.try_catch]. eauto.
Qed.

(** C8. When the explanation collaborator fails, [calculateMatch] still
    returns: with the Score Record it returns when the collaborator answers,
    and with the fallback explanation computed from the total alone, the
    summary "Candidate scored X/100 based on weighted evaluation..." and the
    recommendation "hire" from 70 up, "maybe" below.  This holds for any
    collaborator that throws, and so for the client when the request times
    out, when the status is not 2xx and when the reply is not JSON. *)
Theorem calculateMatch_survives_collaborator_failure (Json : Type)
    (prompt : string)
    (context : Matching.JD -> Matching.Resume -> Matching.Scores -> string)
    (jd : Matching.JD) (resume : Matching.Resume) :
  (forall (complete : string -> string -> JS.result Json) (message : string),
      complete prompt (context jd resume (Spec.score_record jd resume))
      = JS.Throw message ->
      Spec.scored_with_fallback jd resume
        (Matching.calculateMatch Json complete prompt context jd resume))
  /\ (forall (JSON_parse : string -> JS.result Json) (apiKey : option string)
             (fetch : string -> string -> PerplexityClient.Outcome),
         Spec.collaborator_failure JSON_parse
           (fetch prompt (context jd resume (Spec.score_record jd resume))) ->
         Spec.scored_with_fallback jd resume
           (Matching.calculateMatch Json
              (PerplexityClient.complete Json JSON_parse apiKey fetch)
              prompt context jd resume))
  /\ (forall (complete complete' : string -> string -> JS.result Json) m m',
         Matching.calculateMatch Json complete prompt context jd resume
         = JS.Ok m ->
         Matching.calculateMatch Json complete' prompt context jd resume
         = JS.Ok m' ->
         Matching.scores m = Matching.scores m')
  /\ (forall total : float,
         Matching.summary (Spec.fallback_explanation total)
         = "Candidate scored " ++ Number.to_string total
           ++ "/100 based on weighted evaluation of skills, experience, projects, and education."
         /\ Matching.recommendation (Spec.fallback_explanation total)
            = if Number.ge total 70 then "hire" else "maybe").
Proof.
  assert (A : forall (complete : string -> string -> JS.result Json) message,
             complete prompt (context jd resume (Spec.score_record jd resume))
             = JS.Throw message ->
             Spec.scored_with_fallback jd resume
               (Matching.calculateMatch Json complete prompt context jd resume)).
  { intros complete message Hfail.
    destruct (calculateMatch_returns Json complete prompt context jd resume)
      as [m [Hm [Hs He]]].
    rewrite Hfail in He. exists m. auto. }
  split; [exact A|]. split; [|split].
  - intros JSON_parse apiKey fetch Hfail.
    destruct (complete_throws Json JSON_parse apiKey fetch _ _ Hfail)
      as [message Hm].
    exact (A _ message Hm).
  - intros complete complete' m m' Hm Hm'.
    destruct (calculateMatch_returns Json complete prompt context jd resume)
      as [m1 [E1 [S1 _]]].
    destruct (calculateMatch_returns Json complete' prompt context jd resume)
      as [m2 [E2 [S2 _]]].
    congruence.
  - intros total. split; reflexivity.
Qed.

(** ** Comparing candidates *)

(** The reduction keeps the first candidate of highest score among those
    seen so far. *)
Lemma fold_pick_first_highest (key : Ranking.Candidate -> option Q)
    (l : list Ranking.Candidate) :
  forall (pre : list Ranking.Candidate) (best : Ranking.Candidate) (i : nat),
    nth_error pre i = Some best ->
    (forall c', In c' pre ->
                (Spec.score_value (key c') <= Spec.score_value (key best))%Q) ->
    (forall j c', (j < i)%nat -> nth_error pre j = Some c' ->
                  (Spec.score_value (key c') < Spec.score_value (key best))%Q) ->
    Spec.first_highest key (pre ++ l)%list
      (Ranking.id (fold_left (Ranking.pick key) l best)).
Proof.
  induction l as [|x l IH]; intros pre best i Hi Hmax Hfirst.
  - rewrite app_nil_r. exists i, best. simpl. auto.
  - cbn [fold_left].
    replace (pre ++ x :: l)%list with ((pre ++ [x]) ++ l)%list
      by (now rewrite <- app_assoc).
    unfold Ranking.pick at 2.
    destruct (JS.gt (JS.or_num (key x) 0) (JS.or_num (key best) 0)) eqn:E.
    + apply gt_true in E. rewrite !or_num_value in E.
      apply (IH (pre ++ [x])%list x (List.length pre)).
      * rewrite nth_error_app2 by lia. now rewrite Nat.sub_diag.
      * intros c' Hc'. apply in_app_or in Hc' as [Hc'|[Hc'|[]]].
        -- apply Qlt_le_weak. eapply Qle_lt_trans; [apply Hmax, Hc' | exact E].
        -- subst c'. apply Qle_refl.
      * intros j c' Hj Hc'. rewrite nth_error_app1 in Hc' by exact Hj.
        apply nth_error_In in Hc'.
        eapply Qle_lt_trans; [apply Hmax, Hc' | exact E].
    + apply gt_false in E. rewrite !or_num_value in E.
      assert (Hlt : (i < List.length pre)%nat)
        by (apply nth_error_Some; congruence).
      apply (IH (pre ++ [x])%list best i).
      * now rewrite nth_error_app1 by exact Hlt.
      * intros c' Hc'. apply in_app_or in Hc' as [Hc'|[Hc'|[]]].
        -- now apply Hmax.
        -- now subst c'.
      * intros j c' Hj Hc'. rewrite nth_error_app1 in Hc' by lia.
        now apply (Hfirst j).
Qed.

Lemma reduce_pick_first_highest (key : Ranking.Candidate -> option Q)
    (l : list Ranking.Candidate) :
  l <> [] ->
  exists best,
    Ranking.reduce_or_throw (Ranking.pick key) l = JS.Ok best
    /\ Spec.first_highest key l (Ranking.id best).
Proof.
  destruct l as [|x l]; [congruence|]. intros _.
  eexists. split; [reflexivity|].
  apply (fold_pick_first_highest key l [x] x 0%nat).
  - reflexivity.
  - intros c' [Hc'|[]]. subst c'. apply Qle_refl.
  - intros j c' Hj. lia.
Qed.

(** C9. [compareCandidates] throws when fewer than two of the requested
    candidates resolve; with two or more it returns, for skills, experience,
    projects and education in this order, the first candidate of highest
    score in that dimension, and as overall winner the first candidate of
    highest total. *)
Theorem compareCandidates_winners
    (findById : string -> option Ranking.Candidate) (candidateIds : list string) :
  ((List.length (Spec.resolvable findById candidateIds) < 2)%nat ->
   Ranking.compareCandidates findById candidateIds
   = JS.Throw "Need at least 2 valid candidates to compare")
  /\ ((2 <= List.length (Spec.resolvable findById candidateIds))%nat ->
      exists comparison,
        Ranking.compareCandidates findById candidateIds = JS.Ok comparison
        /\ map Ranking.dimension (Ranking.dimensions comparison)
           = [Ranking.skills; Ranking.experience; Ranking.projects;
              Ranking.education]
        /\ (forall d, In d (Ranking.dimensions comparison) ->
                      Spec.first_highest (Ranking.score (Ranking.dimension d))
                        (Spec.resolvable findById candidateIds)
                        (Ranking.winner d))
        /\ Spec.first_highest Ranking.score_total
             (Spec.resolvable findById candidateIds)
             (Ranking.overallWinner comparison)).
Proof.
  unfold Ranking.compareCandidates.
  fold (Spec.resolvable findById candidateIds).
  set (valid := Spec.resolvable findById candidateIds).
  split; intros Hlen.
  - apply Nat.ltb_lt in Hlen. now rewrite Hlen.
  - assert (Hne : valid <> []) by (destruct valid; [simpl in Hlen; lia | discriminate]).
    apply Nat.ltb_ge in Hlen. rewrite Hlen.
    destruct (reduce_pick_first_highest (Ranking.score Ranking.skills) valid Hne)
      as [b1 [E1 H1]].
    destruct (reduce_pick_first_highest (Ranking.score Ranking.experience) valid Hne)
      as [b2 [E2 H2]].
    destruct (reduce_pick_first_highest (Ranking.score Ranking.projects) valid Hne)
      as [b3 [E3 H3]].
    destruct (reduce_pick_first_highest (Ranking.score Ranking.education) valid Hne)
      as [b4 [E4 H4]].
    destruct (reduce_pick_first_highest Ranking.score_total valid Hne)
      as [b5 [E5 H5]].
    cbn [Ranking.map_result]. rewrite E1, E2, E3, E4. cbn [JS.bind].
    rewrite E5. cbn [JS.bind].
    eexists. split; [reflexivity|].
    cbn [Ranking.dimensions Ranking.overallWinner map Ranking.dimension].
    split; [reflexivity|]. split; [|exact H5].
    intros d [Hd|[Hd|[Hd|[Hd|[]]]]]; subst d; assumption.
Qed.

(** ** Projects *)










(** ** Skills *)

















(** ** Experience *)








(** Scenario 1 of the specification. *)
Example experience_five_required_six_offered :
  Matching.calculateExperienceScore Sample.jd_five_years Sample.resume_six_years
  = 100%float.
Proof. vm_compute. reflexivity. Qed.

(** ** Witnesses on the sample data *)


Lemma calculateMatch_collaborator_failure_witness :
  Spec.collaborator_failure Sample.JSON_parse
    (Sample.fetch_503 "prompt"
       (Sample.context Sample.jd Sample.resume
          (Spec.score_record Sample.jd Sample.resume)))
  /\ Spec.scored_with_fallback Sample.jd Sample.resume
       (Matching.calculateMatch unit
          (PerplexityClient.complete unit Sample.JSON_parse (Some "key")
             Sample.fetch_503)
          "prompt" Sample.context Sample.jd Sample.resume).
Proof.
  assert (H : Spec.collaborator_failure Sample.JSON_parse
                (Sample.fetch_503 "prompt"
                   (Sample.context Sample.jd Sample.resume
                      (Spec.score_record Sample.jd Sample.resume))))
    by apply Spec.non_2xx.
  split; [exact H|].
  exact (proj1 (proj2 (calculateMatch_survives_collaborator_failure unit
                         "prompt" Sample.context Sample.jd Sample.resume))
           Sample.JSON_parse (Some "key") Sample.fetch_503 H).
Defined.

(** The sample candidate totals 57, below the threshold of the fallback. *)
Example fallback_of_the_sample :
  Matching.calculateMatch unit
    (PerplexityClient.complete unit Sample.JSON_parse (Some "key")
       Sample.fetch_503)
    "prompt" Sample.context Sample.jd Sample.resume
  = JS.Ok
      {| Matching.scores :=
           {| Matching.total := 57;
              Matching.skills_score := 44;
              Matching.experience_score := 53;
              Matching.projects_score := 77;
              Matching.education_score := 100 |};
         Matching.explanation :=
           Matching.Basic
             {| Matching.summary :=
                  "Candidate scored 57/100 based on weighted evaluation of skills, experience, projects, and education.";
                Matching.strengths := [];
                Matching.gaps := [];
                Matching.recommendation := "maybe" |};
         Matching.matchDetails :=
           {| Matching.skillsAnalysis :=
                Matching.getSkillsAnalysis Sample.jd Sample.resume;
              Matching.experienceAnalysis :=
                Matching.getExperienceAnalysis Sample.jd Sample.resume |} |}.
Proof. vm_compute. reflexivity. Qed.

(** The weighted sum of the scores 3, 25, 77 and 42 is 1.5 + 6.25 + 11.55 +
    4.2 in doubles, 23.499999999999996, and the total is 23. *)
Example total_of_the_junior :
  Spec.score_record Sample.jd_senior Sample.resume_junior
  = {| Matching.total := 23;
       Matching.skills_score := 3;
       Matching.experience_score := 25;
       Matching.projects_score := 77;
       Matching.education_score := 42 |}
  /\ (3 * 0.50 + 25 * 0.25 + 77 * 0.15 + 42 * 0.10 = 23.499999999999996)%float
  /\ Matching.summary (Spec.fallback_explanation 23)
     = "Candidate scored 23/100 based on weighted evaluation of skills, experience, projects, and education.".
Proof. repeat split; vm_compute; reflexivity. Qed.

Lemma compareCandidates_witness :
  Ranking.compareCandidates Sample.findById ["a"; "missing"]
  = JS.Throw "Need at least 2 valid candidates to compare"
  /\ exists comparison,
       Ranking.compareCandidates Sample.findById ["a"; "b"; "c"]
       = JS.Ok comparison
       /\ Spec.first_highest Ranking.score_total
            (Spec.resolvable Sample.findById ["a"; "b"; "c"])
            (Ranking.overallWinner comparison).
Proof.
  split.
  - apply (proj1 (compareCandidates_winners Sample.findById ["a"; "missing"])).
    vm_compute. lia.
  - destruct (proj2 (compareCandidates_winners Sample.findById ["a"; "b"; "c"]))
      as [comparison [H1 [_ [_ H4]]]].
    + vm_compute. lia.
    + exists comparison. split; assumption.
Defined.

(** The tie on the total and the tie on projects go to the first candidate
    of the request. *)
Example compareCandidates_tie_goes_to_first :
  match Ranking.compareCandidates Sample.findById ["a"; "b"; "c"] with
  | JS.Ok comparison =>
      Ranking.overallWinner comparison = "a"
      /\ map Ranking.winner (Ranking.dimensions comparison) = ["a"; "b"; "a"; "c"]
  | JS.Throw _ => False
  end.
Proof. vm_compute. split; reflexivity. Qed.

Example compareCandidates_order_matters :
  match Ranking.compareCandidates Sample.findById ["b"; "a"] with
  | JS.Ok comparison => Ranking.overallWinner comparison = "b"
  | JS.Throw _ => False
  end.
Proof. vm_compute. reflexivity. Qed.


(** One of the two sample projects is relevant, by one technology in
    three: round(60 + min(40, (1/3)/2 * 100)) = 77. *)
Example projects_of_the_sample :
  Matching.calculateProjectsScore Sample.jd Sample.resume = 77%float.
Proof. vm_compute. reflexivity. Qed.

(** Five projects with fractions 7/8, 1/7, 2/7, 2/7 and 2/7: their sum over
    five, times 100, is 37.499999999999986 in doubles, and the score is 97. *)
Example projects_of_five :
  Matching.calculateProjectsScore Sample.jd_eight_skills
    Sample.resume_five_projects = 97%float
  /\ (Spec.avgRelevance (Spec.required_tokens Sample.jd_eight_skills)
        (JS.or_list (Matching.projects Sample.resume_five_projects)) * 100
      = 37.499999999999986)%float.
Proof. split; vm_compute; reflexivity. Qed.

(** The sample candidate matches "React" (5 of 8 required points) and not
    "Docker": round((0.7 * 5/8 + 0.3 * 0) * 100) = 44. *)
Example skills_of_the_sample :
  Matching.calculateSkillsScore Sample.jd Sample.resume = 44%float.
Proof. vm_compute. reflexivity. Qed.

(** No required skill matched and three preferred skills of four:
    (0 * 0.7 + 0.75 * 0.3) * 100 is 22.499999999999996 in doubles, and the
    score is 22. *)
Example skills_three_of_four :
  Matching.calculateSkillsScore Sample.jd_three_of_four Sample.resume_junior
  = 22%float.
Proof. vm_compute. reflexivity. Qed.

(** 2.3 of 4 years is 57.49999999999999 percent in doubles, and 0.7 of 4
    years 17.5 percent. *)
Example experience_partial_credit :
  Matching.calculateExperienceScore (Sample.jd_years 4) (Sample.resume_years 2.3)
  = 57%float
  /\ Matching.calculateExperienceScore (Sample.jd_years 4)
       (Sample.resume_years 0.7) = 18%float.
Proof. split; vm_compute; reflexivity. Qed.

(** Scenario 4 of the specification. *)
Example education_bachelor_required_master_held :
  Matching.calculateEducationScore Sample.jd_bachelor Sample.resume_master
  = 100%float.
Proof. vm_compute. reflexivity. Qed.

(** Scenario 2 of the specification: the required rate is 0 and the empty
    preferred list has rate 1, so the score is round(0.3 * 1 * 100). *)
Example skills_react_required_none_matched :
  Matching.calculateSkillsScore Sample.jd_react Sample.resume_python = 30%float.
Proof. vm_compute. reflexivity. Qed.

(** Scenario 3 of the specification. *)
Example projects_none :
  Matching.calculateProjectsScore Sample.jd_react Sample.resume_python = 50%float.
Proof. vm_compute. reflexivity. Qed.

(** The rendering of numbers in a template literal. *)
Example to_string_samples :
  map Number.to_string
      [57; 100; 0; (-0); 23.499999999999996; 0.1; 1e21; 1e-7; nan; infinity]%float
  = ["57"; "100"; "0"; "0"; "23.499999999999996"; "0.1"; "1e+21"; "1e-7";
     "NaN"; "Infinity"].
Proof. vm_compute. reflexivity. Qed.

(** [Math.round] on halves, on the double below one half and below zero. *)
Example Math_round_samples :
  map Number.Math_round
      [2.5; (-2.5); 0.49999999999999994; 23.499999999999996; 57.5; nan]%float
  = [3; (-2); 0; 23; 58; nan]%float.
Proof. vm_compute. reflexivity. Qed.
